(** * Rush utilities: process execution, environment sanitizing, retries, purge

    A shallow embedding of [Utilities] (rush-lib) and of [PurgeAction.run],
    with the properties of the specification stated over it.

    JavaScript objects used as dictionaries are finite maps ([gmap]),
    strings are [string], integers are [Z], other numbers are IEEE 754
    doubles.
    Code that talks to the outside (child processes, the clock, the console,
    rimraf, the purge manager) runs in a state-and-exception monad over an
    abstract [World]; a computation also gives the journal of the outside
    calls it made, so that "is invoked exactly n times" and "in that order"
    are statements about the journal. *)

From Stdlib Require Import ZArith SpecFloat String Ascii List Lia.
From stdpp Require Import gmap strings list fin_maps pretty.

Local Open Scope string_scope.
Local Open Scope Z_scope.
Local Open Scope list_scope.

(** ** JavaScript values used by the code *)

(** The double quote character, and the one-character string made of it. *)
Definition dquote_char : ascii := ascii_of_nat 34.
Definition dquote : string := String dquote_char EmptyString.

(** [if (s)] on a string: every string but the empty one is truthy. *)
Definition truthy_string (s : string) : bool :=
  match s with
  | EmptyString => false
  | String _ _ => true
  end.

(** [if (n)] on [number | null], for integer statuses: [null] and [0] are
    falsy. *)
Definition truthy_status (status : option Z) : bool :=
  match status with
  | None => false
  | Some n => negb (n =? 0)
  end.

(** A JavaScript number is an IEEE 754 double; its arithmetic rounds to
    the nearest double, ties to even. *)
Abbreviation number := spec_float.

(** The double nearest to an integer. *)
Definition number_of_Z (z : Z) : number := binary_normalize 53 1024 z 0 false.

(** [a + b], [a - b], [a * b], [a / b] and [a > b] on numbers *)
Definition number_add (a b : number) : number := SFadd 53 1024 a b.
Definition number_sub (a b : number) : number := SFsub 53 1024 a b.
Definition number_mul (a b : number) : number := SFmul 53 1024 a b.
Definition number_div (a b : number) : number := SFdiv 53 1024 a b.
Definition number_gt (a b : number) : bool := SFltb b a.

(** [s.indexOf(sub)]: the first position of [sub] in [s], or [-1]. *)
Definition indexOf (s sub : string) : Z :=
  match String.index 0 sub s with
  | Some n => Z.of_nat n
  | None => -1
  end.



(** [String.prototype.toUpperCase] restricted to the ASCII letters; used
    where a concrete host is needed. *)
Definition ascii_toUpperCase_char (c : ascii) : ascii :=
  let n := nat_of_ascii c in
  if (andb (Nat.leb 97 n) (Nat.leb n 122)) then ascii_of_nat (n - 32) else c.

Fixpoint ascii_toUpperCase (s : string) : string :=
  match s with
  | EmptyString => EmptyString
  | String c rest => String (ascii_toUpperCase_char c) (ascii_toUpperCase rest)
  end.

(** ** Environments

    [IEnvironment] is [{ [name: string]: string | undefined }]. *)

Inductive EnvValue : Type :=
| Undefined
| Str (s : string).

Abbreviation IEnvironment := (gmap string EnvValue).

(** [environment[key] = value] on an object created by [{}]: an own
    property is written, except for the key [__proto__], which reaches the
    setter inherited from [Object.prototype]; that setter ignores a value
    that is neither an object nor [null], so nothing is stored. *)
Definition js_assign (key : string) (value : EnvValue)
    (environment : IEnvironment) : IEnvironment :=
  if String.eqb key "__proto__" then environment
  else <[key := value]> environment.

(** ** Errors and results of [child_process.spawnSync] *)

(** The [errno] property of the error of a failed spawn: the name of the
    error, as the versions of Node that the workaround of
    [_executeCommandInternal] was written for have it, or its number, as
    later versions have it. *)
Inductive ErrnoValue : Type :=
  | ErrnoName (name : string)
  | ErrnoNumber (number : Z).

(** A JavaScript [Error]: its message, and the [errno] property that
    spawn failures carry. *)
Record Error : Type := mkError {
  message : string;
  errno : option ErrnoValue
}.

(** [new Error(msg)] *)
Definition new_Error (msg : string) : Error :=
  {| message := msg; errno := None |}.

(** An element of a [stdio] array: a file descriptor or a word such as
    ['pipe']. *)
Inductive StdioItem : Type :=
| Fd (n : Z)
| Word (s : string).

Record SpawnSyncOptions : Type := mkOptions {
  cwd : string;
  shell : bool;
  stdio : option (list StdioItem);
  env : option IEnvironment
}.

(** [child_process.SpawnSyncReturns<Buffer>]: [status] is [null] when the
    child was ended by a signal, [stdout]/[stderr] are [null] when the
    stream is not piped, [error] is set when the child could not be
    spawned. *)
Record SpawnSyncReturns : Type := mkReturns {
  status : option Z;
  signal : option string;
  stdout : option string;
  stderr : option string;
  error : option Error
}.

Record RimrafOptions : Type := mkRimrafOptions {
  disableGlob : bool
}.

(** ** The host

    What the code reads from Node and from its collaborators. *)

(** [Event.preRushInstall], the one member of the [Event] enumeration that
    the code names. *)
Inductive RushEvent : Type :=
| preRushInstall.

(** Methods of collaborators that [PurgeAction.run] calls. *)
Inductive Collaborator : Type :=
| Stopwatch_start
| Stopwatch_toString
| EventHooksManager_handle (event : RushEvent)
| PurgeManager_new
| PurgeManager_purgeNormal
| PurgeManager_purgeUnsafe
| PurgeManager_deleteAll.

Class Host (World : Type) : Type := {
  (** [os.platform()] *)
  os_platform : string;
  (** [os.EOL] *)
  os_EOL : string;
  (** [String.prototype.toUpperCase] *)
  toUpperCase : string -> string;
  (** [process.env] *)
  process_env : IEnvironment;
  (** [process.hrtime()]: seconds and nanoseconds *)
  process_hrtime : World -> Z * Z;
  (** [child_process.spawnSync(command, args, options)] *)
  child_process_spawnSync :
    string -> list string -> SpawnSyncOptions -> World -> SpawnSyncReturns * World;
  (** [rimraf.sync(path, options)]: [Some e] when it throws [e] *)
  rimraf_sync : string -> RimrafOptions -> World -> option Error * World;
  (** the paths that exist on disk *)
  fs_paths : World -> gset string;
  (** a call of a collaborator's method: [Some e] when it throws [e] *)
  collaborate : Collaborator -> World -> option Error * World
}.

(** ** EnvironmentSanitizer *)

Section Sanitizer.
Context {World : Type} {host : Host World}.

(** [os.platform() === 'win32' ? key.toUpperCase() : key] *)
Definition normalizedKey (key : string) : string :=
  if String.eqb os_platform "win32" then toUpperCase key else key.

(** [normalizedKey.match(/^NPM_CONFIG_/)] *)
Definition match_NPM_CONFIG (normalized : string) : bool :=
  String.prefix "NPM_CONFIG_" normalized.

(** One turn of the [for ... of Object.getOwnPropertyNames] loop. *)
Definition copy_entry (key : string) (value : EnvValue)
    (environment : IEnvironment) : IEnvironment :=
  if String.eqb (normalizedKey key) "INIT_CWD" then environment
  else if match_NPM_CONFIG (normalizedKey key) then environment
  else js_assign key value environment.

(** [Utilities._createEnvironmentForRushCommand]; the loop goes over the
    own keys of [initialEnvironment], which are all different, so that the
    order of the turns does not matter. *)
Definition _createEnvironmentForRushCommand (initCwd : string)
    (initialEnvironment : option IEnvironment) : IEnvironment :=
  let initialEnvironment :=
    match initialEnvironment with
    | None => process_env
    | Some e => e
    end in
  let environment := map_fold copy_entry ∅ initialEnvironment in
  if truthy_string initCwd
  then js_assign "INIT_CWD" (Str initCwd) environment
  else environment.

(** The base environment that the sanitizer reads. *)
Definition base_of (initialEnvironment : option IEnvironment) : IEnvironment :=
  match initialEnvironment with
  | None => process_env
  | Some e => e
  end.

(** The entries that the loop keeps. *)
Definition kept (key : string) : bool :=
  negb (String.eqb (normalizedKey key) "INIT_CWD")
  && negb (match_NPM_CONFIG (normalizedKey key))
  && negb (String.eqb key "__proto__").

End Sanitizer.

(** ** Effects

    A computation takes the world, and gives its completion, the world it
    leaves, and the journal of the outside calls it made, in order. *)

(** The messages that the code writes to the console, by what they say
    rather than by their text. *)
Inductive ConsoleMessage : Type :=
| CommandFailed (command : string) (args : list string) (error : Error)
| TryingAgain (attemptNumber : Z)
| GivingUp (attemptNumber : Z)
| Stalled (fnName : string) (elapsedMs : number)
| PurgeStarted.

(** What the journal records: the calls of [child_process.spawnSync], of
    [rimraf.sync], of a collaborator's method, of [console.log] and
    [console.error], each with its arguments; and, for counting, every
    entry into [Utilities.executeCommand] and every call of the
    [retryCallback] of [executeCommandWithRetry]. *)
Inductive Event : Type :=
| Spawned (command : string) (args : list string) (options : SpawnSyncOptions)
| Rimraffed (path : string) (options : RimrafOptions)
| Collaborated (c : Collaborator)
| ConsoleLog (m : ConsoleMessage)
| ConsoleError (m : ConsoleMessage)
| EnteredExecuteCommand (command : string) (args : list string)
| CalledRetryCallback.

(** How a computation ends: it returns a value, it throws, or, for a
    [while (true)] loop, the fuel given to it ran out before it ended. *)
Inductive Completion (A : Type) : Type :=
| Returns (a : A)
| Throws (e : Error)
| OutOfFuel.

Arguments Returns {A} a.
Arguments Throws {A} e.
Arguments OutOfFuel {A}.

Definition M (World A : Type) : Type :=
  World -> Completion A * World * list Event.

Section Monad.
Context {World : Type}.

Definition ret {A} (a : A) : M World A := fun w => (Returns a, w, []).

Definition throw {A} (e : Error) : M World A := fun w => (Throws e, w, []).

Definition out_of_fuel {A} : M World A := fun w => (OutOfFuel, w, []).

Definition bind {A B} (m : M World A) (k : A -> M World B) : M World B :=
  fun w =>
    match m w with
    | (Returns a, w1, evs1) =>
        let '(c, w2, evs2) := k a w1 in (c, w2, evs1 ++ evs2)
    | (Throws e, w1, evs1) => (Throws e, w1, evs1)
    | (OutOfFuel, w1, evs1) => (OutOfFuel, w1, evs1)
    end.

(** [try { body } catch (e) { handler e }] *)
Definition try_catch {A} (body : M World A) (handler : Error -> M World A)
    : M World A :=
  fun w =>
    match body w with
    | (Throws e, w1, evs1) =>
        let '(c, w2, evs2) := handler e w1 in (c, w2, evs1 ++ evs2)
    | other => other
    end.

Definition emit (ev : Event) : M World unit := fun w => (Returns tt, w, [ev]).

(** A call of something that either returns or throws. *)
Definition call (ev : Event) (f : World -> option Error * World)
    : M World unit :=
  fun w =>
    match f w with
    | (None, w1) => (Returns tt, w1, [ev])
    | (Some e, w1) => (Throws e, w1, [ev])
    end.

End Monad.

Notation "'let*' x ':=' m 'in' k" := (bind m (fun x => k))
  (at level 10, x name, m at level 200, k at level 200, only parsing).
Notation "'exec' m 'in' k" := (bind m (fun _ => k))
  (at level 10, m at level 200, k at level 200, only parsing).

Definition completion_of {World A} (r : Completion A * World * list Event)
    : Completion A := fst (fst r).
Definition world_of {World A} (r : Completion A * World * list Event)
    : World := snd (fst r).
Definition journal_of {World A} (r : Completion A * World * list Event)
    : list Event := snd r.

(** How many events of a journal satisfy [p]. *)
Definition count_events (p : Event -> bool) (journal : list Event) : nat :=
  length (List.filter p journal).

Definition is_EnteredExecuteCommand (ev : Event) : bool :=
  match ev with EnteredExecuteCommand _ _ => true | _ => false end.

Definition is_CalledRetryCallback (ev : Event) : bool :=
  match ev with CalledRetryCallback => true | _ => false end.

Definition is_Spawned (ev : Event) : bool :=
  match ev with Spawned _ _ _ => true | _ => false end.

(** ** Utilities *)

Section Utilities.
Context {World : Type} {host : Host World}.

(** [Utilities.getTimeInMs]: [seconds * 1000 + nanoseconds / 1000000] *)
Definition getTimeInMs (w : World) : number :=
  let '(seconds, nanoseconds) := process_hrtime w in
  number_add (number_mul (number_of_Z seconds) (number_of_Z 1000))
    (number_div (number_of_Z nanoseconds) (number_of_Z 1000000)).

Definition now : M World number :=
  fun w => (Returns (getTimeInMs w), w, []).

(** [currentTime - startTime > maxWaitTimeMs], the test of the loop of
    [retryUntilTimeout], with the clock as it reads in [w]. *)
Definition timed_out (maxWaitTimeMs startTime : number) (w : World) : bool :=
  number_gt (number_sub (getTimeInMs w) startTime) maxWaitTimeMs.

(** The time from the reading of [process.hrtime()] in [w0] to the
    reading in [w1], in nanoseconds and without rounding. *)
Definition elapsed_nanoseconds (w0 w1 : World) : Z :=
  (fst (process_hrtime w1) - fst (process_hrtime w0)) * 1000000000
  + (snd (process_hrtime w1) - snd (process_hrtime w0)).

Section RetryUntilTimeout.
Context {TResult : Type}.
Variable fn : M World TResult.
Variable maxWaitTimeMs : number.
Variable getTimeoutError : Error -> Error.
Variable fnName : string.

(** The [while (true)] loop; it gives the result of [fn] and the value
    of [looped]. *)
Fixpoint retryUntilTimeout_loop (fuel : nat) (startTime : number)
    (looped : bool) : M World (TResult * bool) :=
  match fuel with
  | O => out_of_fuel
  | S fuel' =>
      try_catch
        (let* result := fn in
         ret (result, looped))
        (fun e =>
           let* currentTime := now in
           if number_gt (number_sub currentTime startTime) maxWaitTimeMs
           then throw (getTimeoutError e)
           else retryUntilTimeout_loop fuel' startTime true)
  end.

(** The world after [n] calls of [fn] in a row, and the journal of
    these calls. *)
Fixpoint world_after (n : nat) (w : World) : World :=
  match n with
  | O => w
  | S n' => world_after n' (world_of (fn w))
  end.

Fixpoint journal_after (n : nat) (w : World) : list Event :=
  match n with
  | O => []
  | S n' => journal_of (fn w) ++ journal_after n' (world_of (fn w))
  end.

(** [Utilities.retryUntilTimeout] *)
Definition retryUntilTimeout (fuel : nat) : M World TResult :=
  let* startTime := now in
  let* r := retryUntilTimeout_loop fuel startTime false in
  let '(result, looped) := r in
  exec (if looped : bool
        then let* currentTime := now in
             emit (ConsoleLog
                     (Stalled fnName (number_sub currentTime startTime)))
        else ret tt) in
  ret result.

End RetryUntilTimeout.

(** [Utilities.escapeShellParameter] *)
Definition escapeShellParameter (parameter : string) : string :=
  dquote +:+ parameter +:+ dquote.

(** [Utilities._processResult] *)
Definition _processResult (result : SpawnSyncReturns) : M World unit :=
  match error result with
  | Some err =>
      throw {| message := message err +:+ os_EOL +:+
                 match stderr result with
                 | Some text => text +:+ os_EOL
                 | None => EmptyString
                 end;
               errno := errno err |}
  | None =>
      if truthy_status (status result)
      then throw (new_Error
             ("The command failed with exit code "
              +:+ match status result with
                  | Some n => pretty n
                  | None => EmptyString
                  end
              +:+ os_EOL
              +:+ match stderr result with
                  | Some text => text
                  | None => EmptyString
                  end))
      else ret tt
  end.

(** The text of the captured standard error, empty when there is none. *)
Definition stderr_text (result : SpawnSyncReturns) : string :=
  match stderr result with
  | Some text => text
  | None => EmptyString
  end.

(** What [_processResult] does with a result: it neither touches the
    world nor calls anything, and what it raises depends on the result
    alone. *)
Definition processed (result : SpawnSyncReturns) : Completion unit :=
  match error result with
  | Some err =>
      Throws {| message := message err +:+ os_EOL +:+
                  match stderr result with
                  | Some text => text +:+ os_EOL
                  | None => EmptyString
                  end;
                errno := errno err |}
  | None =>
      match status result with
      | Some code =>
          if code =? 0 then Returns tt
          else Throws (new_Error
                 ("The command failed with exit code " +:+ pretty code
                  +:+ os_EOL +:+ stderr_text result))
      | None => Returns tt
      end
  end.

Definition spawnSync (command : string) (args : list string)
    (options : SpawnSyncOptions) : M World SpawnSyncReturns :=
  fun w =>
    let '(result, w1) := child_process_spawnSync command args options w in
    (Returns result, w1, [Spawned command args options]).

(** [result.error && result.error.errno === 'ENOENT'] *)
Definition is_ENOENT (result : SpawnSyncReturns) : bool :=
  match error result with
  | Some err =>
      match errno err with
      | Some (ErrnoName code) => String.eqb code "ENOENT"
      | Some (ErrnoNumber _) => false
      | None => false
      end
  | None => false
  end.

(** [command.indexOf(' ') < 0 ? command : escapeShellParameter(command)] *)
Definition escapedCommand (command : string) : string :=
  if indexOf command " " <? 0 then command
  else escapeShellParameter command.

(** [args.map((x) => Utilities.escapeShellParameter(x))] *)
Definition escapedArgs (args : list string) : list string :=
  List.map escapeShellParameter args.

(** The [options] object of [_executeCommandInternal]. *)
Definition spawn_options (workingDirectory : string)
    (stdio : option (list StdioItem)) (environment : option IEnvironment)
    (keepEnvironment : bool) : SpawnSyncOptions :=
  {| cwd := workingDirectory;
     shell := true;
     stdio := stdio;
     env := if keepEnvironment then environment
            else Some (_createEnvironmentForRushCommand EmptyString
                         environment) |}.

(** The result that a synchronous execution hands to [_processResult],
    the world after the spawns, and the spawns after the first. *)
Definition spawned (command : string) (args : list string)
    (options : SpawnSyncOptions) (w : World)
    : SpawnSyncReturns * World * list Event :=
  let '(first, w1) :=
    child_process_spawnSync (escapedCommand command) (escapedArgs args)
      options w in
  if is_ENOENT first
  then
    let '(second, w2) :=
      child_process_spawnSync (command +:+ ".cmd") args options w1 in
    (second, w2, [Spawned (command +:+ ".cmd") args options])
  else (first, w1, []).

(** [Utilities._executeCommandInternal] *)
Definition _executeCommandInternal (command : string) (args : list string)
    (workingDirectory : string) (stdio : option (list StdioItem))
    (environment : option IEnvironment) (keepEnvironment : bool)
    : M World SpawnSyncReturns :=
  let options :=
    spawn_options workingDirectory stdio environment keepEnvironment in
  let* result :=
    spawnSync (escapedCommand command) (escapedArgs args) options in
  let* result :=
    (if is_ENOENT result
     then spawnSync (command +:+ ".cmd") args options
     else ret result) in
  exec _processResult result in
  ret result.

(** [Utilities.executeCommand] *)
Definition executeCommand (command : string) (args : list string)
    (workingDirectory : string) (environment : option IEnvironment)
    (suppressOutput keepEnvironment : bool) : M World unit :=
  exec emit (EnteredExecuteCommand command args) in
  exec _executeCommandInternal command args workingDirectory
         (if suppressOutput then None else Some [Fd 0; Fd 1; Fd 2])
         environment keepEnvironment in
  ret tt.

(** [Utilities.executeCommandAndCaptureOutput] *)
Definition executeCommandAndCaptureOutput (command : string)
    (args : list string) (workingDirectory : string)
    (environment : option IEnvironment) (keepEnvironment : bool)
    : M World (option string) :=
  let* result :=
    _executeCommandInternal command args workingDirectory
      (Some [Word "pipe"; Word "pipe"; Word "pipe"])
      environment keepEnvironment in
  ret (stdout result).

Section ExecuteCommandWithRetry.
Variable maxAttempts : Z.
Variable command : string.
Variable args : list string.
Variable workingDirectory : string.
Variable environment : option IEnvironment.
Variable suppressOutput : bool.
Variable retryCallback : option (World -> option Error * World).

(** What calling [retryCallback] does to the world; nothing when there
    is no callback. *)
Definition callback_step (w : World) : option Error * World :=
  match retryCallback with
  | Some callback => callback w
  | None => (None, w)
  end.

(** The journal of [if (retryCallback) { retryCallback(); }]. *)
Definition callback_journal : list Event :=
  match retryCallback with
  | Some _ => [CalledRetryCallback]
  | None => []
  end.

(** The [while (true)] loop, from the attempt numbered
    [attemptNumber]. *)
Fixpoint executeCommandWithRetry_loop (fuel : nat) (attemptNumber : Z)
    : M World unit :=
  match fuel with
  | O => out_of_fuel
  | S fuel' =>
      try_catch
        (executeCommand command args workingDirectory environment
           suppressOutput false)
        (fun error =>
           exec emit (ConsoleLog (CommandFailed command args error)) in
           if attemptNumber <? maxAttempts
           then
             let attemptNumber := attemptNumber + 1 in
             exec emit (ConsoleLog (TryingAgain attemptNumber)) in
             exec match retryCallback with
                  | Some callback => call CalledRetryCallback callback
                  | None => ret tt
                  end in
             executeCommandWithRetry_loop fuel' attemptNumber
           else
             exec emit (ConsoleError (GivingUp attemptNumber)) in
             throw error)
  end.

(** [Utilities.executeCommandWithRetry] *)
Definition executeCommandWithRetry (fuel : nat) : M World unit :=
  if maxAttempts <? 1
  then throw (new_Error "The maxAttempts parameter cannot be less than 1")
  else executeCommandWithRetry_loop fuel 1.

End ExecuteCommandWithRetry.

(** [Utilities.dangerouslyDeletePath] *)
Definition dangerouslyDeletePath (folderPath : string) : M World unit :=
  let options := {| disableGlob := true |} in
  try_catch
    (call (Rimraffed folderPath options) (rimraf_sync folderPath options))
    (fun e =>
       throw (new_Error
         (message e +:+ os_EOL +:+ "Often this is caused by a file lock"
          +:+ " from a process such as your text editor, command prompt, or "
          +:+ dquote +:+ "gulp serve" +:+ dquote))).

End Utilities.

(** ** PurgeAction *)

Section PurgeAction.
Context {World : Type} {host : Host World}.

Definition collaborator (c : Collaborator) : M World unit :=
  call (Collaborated c) (collaborate c).

(** The body that [PurgeAction.run] hands to [Promise.resolve().then];
    [unsafeParameter] is [this._unsafeParameter.value]. *)
Definition run (unsafeParameter : bool) : M World unit :=
  exec collaborator Stopwatch_start in
  exec collaborator (EventHooksManager_handle preRushInstall) in
  exec collaborator PurgeManager_new in
  exec (if unsafeParameter
        then collaborator PurgeManager_purgeUnsafe
        else collaborator PurgeManager_purgeNormal) in
  exec collaborator PurgeManager_deleteAll in
  exec collaborator Stopwatch_toString in
  emit (ConsoleLog PurgeStarted).


End PurgeAction.

(** ** PurgeManager *)




(** ** A concrete host

    A small world to run the definitions in: a clock, the results that the
    next spawns will give, and the paths on disk. *)

Module Demo.

Record World : Type := mkWorld {
  clock : Z * Z;
  script : list SpawnSyncReturns;
  disk : gset string
}.

(** A child that ran and exited with [code]; nothing is piped. *)
Definition exited (code : Z) : SpawnSyncReturns :=
  {| status := Some code; signal := None; stdout := None; stderr := None;
     error := None |}.

(** A child that ran, exited with [code] and wrote [text] to its piped
    standard error. *)
Definition exited_with_stderr (code : Z) (text : string) : SpawnSyncReturns :=
  {| status := Some code; signal := None; stdout := Some EmptyString;
     stderr := Some text; error := None |}.

(** A child ended by a signal. *)
Definition killed (sig : string) : SpawnSyncReturns :=
  {| status := None; signal := Some sig; stdout := None; stderr := None;
     error := None |}.

(** A spawn that failed with the given [errno]. *)
Definition spawn_failed (code : string) : SpawnSyncReturns :=
  {| status := None; signal := None; stdout := None; stderr := None;
     error := Some {| message := "spawn " +:+ code;
                      errno := Some (ErrnoName code) |} |}.

(** A spawn that failed with the given name in the message of its error
    and the given number as its [errno]. *)
Definition spawn_failed_with_number (code : string) (number : Z)
    : SpawnSyncReturns :=
  {| status := None; signal := None; stdout := None; stderr := None;
     error := Some {| message := "spawn " +:+ code;
                      errno := Some (ErrnoNumber number) |} |}.

(** Each spawn takes the next result of the script and one second. *)
Definition demo_spawnSync (command : string) (args : list string)
    (options : SpawnSyncOptions) (w : World) : SpawnSyncReturns * World :=
  let later := (fst (clock w) + 1, snd (clock w)) in
  match script w with
  | result :: rest =>
      (result, {| clock := later; script := rest; disk := disk w |})
  | [] => (exited 0, {| clock := later; script := []; disk := disk w |})
  end.

(** [q] is [p] or lies below it. *)
Definition inside (p q : string) : bool :=
  String.eqb p q || String.prefix (p +:+ "/") q.

(** A pattern that ends in a star matches the paths that start with what
    comes before the star. *)
Definition glob_matches (pattern q : string) : bool :=
  match String.index 0 "*" pattern with
  | Some n => String.prefix (String.substring 0 n pattern) q
  | None => inside pattern q
  end.

(** rimraf: with [disableGlob] the path is literal, otherwise it is a
    pattern. It does not throw here. *)
Definition demo_rimraf (path : string) (options : RimrafOptions) (w : World)
    : option Error * World :=
  let doomed q :=
    if disableGlob options then inside path q else glob_matches path q in
  (None,
   {| clock := clock w; script := script w;
      disk := filter (fun q => doomed q = false) (disk w) |}).

Definition demo_collaborate (c : Collaborator) (w : World)
    : option Error * World := (None, w).

Definition posix_host : Host World :=
  {| os_platform := "linux";
     os_EOL := String (ascii_of_nat 10) EmptyString;
     toUpperCase := ascii_toUpperCase;
     process_env := ∅;
     process_hrtime := clock;
     child_process_spawnSync := demo_spawnSync;
     rimraf_sync := demo_rimraf;
     fs_paths := disk;
     collaborate := demo_collaborate |}.

Definition win32_host : Host World :=
  {| os_platform := "win32";
     os_EOL := String (ascii_of_nat 13) (String (ascii_of_nat 10) EmptyString);
     toUpperCase := ascii_toUpperCase;
     process_env := ∅;
     process_hrtime := clock;
     child_process_spawnSync := demo_spawnSync;
     rimraf_sync := demo_rimraf;
     fs_paths := disk;
     collaborate := demo_collaborate |}.

(** A world at time zero in which the next spawns give [results]. *)
Definition world_with (results : list SpawnSyncReturns) : World :=
  {| clock := (0, 0); script := results; disk := ∅ |}.


(** A retry callback that does nothing. *)
Definition cleanup (w : World) : option Error * World := (None, w).

(** The environment of a process that npm started. *)
Definition npm_config : IEnvironment :=
  <["INIT_CWD" := Str "/old"]>
    (<["NPM_CONFIG_REGISTRY" := Str "https://example.invalid"]>
       (<["PATH" := Str "/usr/bin"]> ∅)).

(** The same on Windows, where the names come in any case. *)
Definition windows_config : IEnvironment :=
  <["init_cwd" := Str "C:\old"]>
    (<["npm_config_registry" := Str "https://example.invalid"]>
       (<["Path" := Str "C:\Windows"]> ∅)).

(** The error that [createFolderWithRetry] makes of the last error. *)
Definition lock_error (e : Error) : Error :=
  new_Error ("Error: " +:+ message e).

(** A disk with a folder whose name is a star. *)
Definition starred_disk : World :=
  {| clock := (0, 0); script := [];
     disk := {[ "/tmp/a"; "/tmp/*"; "/tmp/*/x"; "/home" ]} |}.

End Demo.

(** ** The command line of a spawn through a shell *)









(** ** The file system and the console

    The rest of [Utilities] reads and writes files and writes lines to the
    console. These calls are a second part of the host; what they do is
    kept in the world. *)

(** [fs.Stats], with what the code asks of it; [mtime] is the value of
    the [Date], in milliseconds. *)
Record Stats : Type := mkStats {
  isFile : bool;
  isDirectory : bool;
  mtime : Z
}.

(** [IPackageJson], with the fields that the code writes. *)
Record IPackageJson : Type := mkPackageJson {
  dependencies : gmap string string;
  description : string;
  name : string;
  private : bool;
  version : string
}.

Class Node (World : Type) : Type := {
  (** [process.env.comspec] *)
  process_env_comspec : option string;
  (** [fsx.existsSync(path)] *)
  fsx_existsSync : string -> World -> bool;
  (** [fsx.lstatSync(path)], which throws when there is nothing at [path] *)
  fsx_lstatSync : string -> World -> Error + Stats;
  (** [fsx.statSync(path)] *)
  fsx_statSync : string -> World -> Error + Stats;
  (** [fsx.mkdirsSync(path)] *)
  fsx_mkdirsSync : string -> World -> option Error * World;
  (** [fsx.unlinkSync(path)] *)
  fsx_unlinkSync : string -> World -> option Error * World;
  (** [fsx.emptyDirSync(path)] *)
  fsx_emptyDirSync : string -> World -> option Error * World;
  (** [JsonFile.save(object, path)] *)
  JsonFile_save : IPackageJson -> string -> World -> option Error * World;
  (** [path.join(a, b)] *)
  path_join : string -> string -> string;
  (** [console.log(line)] *)
  console_log : string -> World -> World
}.

(** [String(e)] for an error whose [name] is ["Error"], as the errors of
    the file system are. *)
Definition Error_toString (e : Error) : string :=
  if truthy_string (message e) then "Error: " +:+ message e else "Error".

(** [Utilities.getSetAsArray]; a [Set] is the list of its values in the
    order in which they were added, which is the order of [forEach]. *)
Definition getSetAsArray {T : Type} (set : list T) : list T :=
  List.fold_left (fun result value => result ++ [value]) set [].

Section Files.
Context {World : Type} {host : Host World} {node : Node World}.

Definition existsSync (path : string) : M World bool :=
  fun w => (Returns (fsx_existsSync path w), w, []).

Definition lstatSync (path : string) : M World Stats :=
  fun w =>
    match fsx_lstatSync path w with
    | inr stats => (Returns stats, w, [])
    | inl e => (Throws e, w, [])
    end.

Definition statSync (path : string) : M World Stats :=
  fun w =>
    match fsx_statSync path w with
    | inr stats => (Returns stats, w, [])
    | inl e => (Throws e, w, [])
    end.

(** A call of the file system that returns nothing. *)
Definition fs_call (f : World -> option Error * World) : M World unit :=
  fun w =>
    match f w with
    | (None, w1) => (Returns tt, w1, [])
    | (Some e, w1) => (Throws e, w1, [])
    end.

Definition log (line : string) : M World unit :=
  fun w => (Returns tt, console_log line w, []).

(** [Utilities.fileExists] *)
Definition fileExists (filePath : string) : M World bool :=
  try_catch
    (let* lstat := lstatSync filePath in
     ret (isFile lstat))
    (fun _ => ret false).

(** [Utilities.directoryExists] *)
Definition directoryExists (directoryPath : string) : M World bool :=
  try_catch
    (let* lstat := lstatSync directoryPath in
     ret (isDirectory lstat))
    (fun _ => ret false).

(** [Utilities.deleteFile] *)
Definition deleteFile (filePath : string) : M World unit :=
  let* found := fileExists filePath in
  if found : bool
  then exec log ("Deleting: " +:+ filePath) in
       fs_call (fsx_unlinkSync filePath)
  else ret tt.

(** The [for ... of inputFilenames] loop of [isFileTimestampCurrent]. *)
Fixpoint isFileTimestampCurrent_loop (outputStats : Stats)
    (inputFilenames : list string) : M World bool :=
  match inputFilenames with
  | [] => ret true
  | inputFilename :: rest =>
      let* found := existsSync inputFilename in
      if negb found then ret false
      else
        let* inputStats := statSync inputFilename in
        if mtime outputStats <? mtime inputStats then ret false
        else isFileTimestampCurrent_loop outputStats rest
  end.

(** [Utilities.isFileTimestampCurrent] *)
Definition isFileTimestampCurrent (outputFilename : string)
    (inputFilenames : list string) : M World bool :=
  let* found := existsSync outputFilename in
  if negb found then ret false
  else
    let* outputStats := statSync outputFilename in
    isFileTimestampCurrent_loop outputStats inputFilenames.

(** The error that [createFolderWithRetry] makes of the last error. *)
Definition createFolder_timeoutError (e : Error) : Error :=
  new_Error
    ("Error: " +:+ Error_toString e +:+ os_EOL
     +:+ "Often this is caused by a file lock "
     +:+ "from a process such as your text editor, command prompt, "
     +:+ "or " +:+ dquote +:+ "gulp serve" +:+ dquote).

(** [Utilities.createFolderWithRetry] *)
Definition createFolderWithRetry (folderName : string) (fuel : nat)
    : M World unit :=
  let* found := directoryExists folderName in
  if found : bool then ret tt
  else
    let maxWaitTimeMs : number :=
      number_mul (number_of_Z 7) (number_of_Z 1000) in
    retryUntilTimeout (fs_call (fsx_mkdirsSync folderName)) maxWaitTimeMs
      createFolder_timeoutError "createFolderWithRetry" fuel.

(** The options of the spawn of [executeLifecycleCommand]. *)
Definition lifecycle_options (workingDirectory initCwd : string)
    (captureOutput : bool) : SpawnSyncOptions :=
  {| cwd := workingDirectory;
     shell := if negb (String.eqb os_platform "win32") then false else true;
     env := Some (_createEnvironmentForRushCommand initCwd None);
     stdio := if captureOutput
              then Some [Word "pipe"; Word "pipe"; Word "pipe"]
              else Some [Fd 0; Fd 1; Fd 2] |}.

(** [process.env.comspec || 'cmd'], then ['sh'] when the platform is not
    ['win32'] *)
Definition lifecycle_shellCommand : string :=
  let shellCommand :=
    match process_env_comspec with
    | Some comspec => if truthy_string comspec then comspec else "cmd"
    | None => "cmd"
    end in
  if negb (String.eqb os_platform "win32") then "sh" else shellCommand.

Definition lifecycle_commandFlags : string :=
  if negb (String.eqb os_platform "win32") then "-c" else "/d /s /c".

(** [Utilities.executeLifecycleCommand] *)
Definition executeLifecycleCommand (command workingDirectory initCwd : string)
    (captureOutput : bool) : M World SpawnSyncReturns :=
  let* result :=
    spawnSync lifecycle_shellCommand [lifecycle_commandFlags; command]
      (lifecycle_options workingDirectory initCwd captureOutput) in
  exec _processResult result in
  ret result.

(** [Utilities.installPackageInDirectory] *)
Definition installPackageInDirectory (directory packageName version
    tempPackageTitle : string) (maxInstallAttempts : Z)
    (suppressOutput : bool) (fuel : nat) : M World unit :=
  exec (let* found := existsSync directory in
        if found : bool
        then log ("Deleting old files from " +:+ directory)
        else ret tt) in
  exec fs_call (fsx_emptyDirSync directory) in
  let npmPackageJson :=
    {| dependencies := {[ packageName := version ]};
       description := "Temporary file generated by the Rush tool";
       name := tempPackageTitle;
       private := true;
       version := "0.0.0" |} in
  exec fs_call (JsonFile_save npmPackageJson
                  (path_join directory "package.json")) in
  exec log (os_EOL +:+ "Running " +:+ dquote +:+ "npm install" +:+ dquote
            +:+ " in " +:+ directory) in
  executeCommandWithRetry maxInstallAttempts "npm" ["install"] directory
    (Some (_createEnvironmentForRushCommand EmptyString None))
    suppressOutput None fuel.

End Files.

(** ** Files on the concrete host

    The disk of the concrete host as a file system: a path with a dot in
    it is a file, any other path is a folder; whatever lies under
    [/locked] cannot be created, and each try takes three seconds. *)

Module DemoFiles.
Import Demo.

Definition is_folder (path : string) : bool :=
  match String.index 0 "." path with
  | Some _ => false
  | None => true
  end.

Definition demo_lstat (path : string) (w : World) : Error + Stats :=
  if bool_decide (path ∈ disk w)
  then inr {| isFile := negb (is_folder path);
              isDirectory := is_folder path;
              mtime := 0 |}
  else inl (new_Error ("ENOENT: no such file or directory, lstat " +:+ path)).

Definition demo_mkdirs (path : string) (w : World) : option Error * World :=
  if String.prefix "/locked" path
  then (Some (new_Error "EBUSY: resource busy or locked"),
        {| clock := (fst (clock w) + 3, snd (clock w));
           script := script w; disk := disk w |})
  else (None,
        {| clock := clock w; script := script w;
           disk := {[ path ]} ∪ disk w |}).

Definition demo_unlink (path : string) (w : World) : option Error * World :=
  (None,
   {| clock := clock w; script := script w; disk := disk w ∖ {[ path ]} |}).

Definition demo_save (object : IPackageJson) (path : string) (w : World)
    : option Error * World :=
  (None,
   {| clock := clock w; script := script w; disk := {[ path ]} ∪ disk w |}).

Definition node : Node World :=
  {| process_env_comspec := None;
     fsx_existsSync := fun path w => bool_decide (path ∈ disk w);
     fsx_lstatSync := demo_lstat;
     fsx_statSync := demo_lstat;
     fsx_mkdirsSync := demo_mkdirs;
     fsx_unlinkSync := demo_unlink;
     fsx_emptyDirSync := fun path w => (None, w);
     JsonFile_save := demo_save;
     path_join := fun a b => a +:+ "/" +:+ b;
     console_log := fun line w => w |}.

(** An operation that fails while the clock is below three seconds, each
    failure taking three seconds, and then succeeds. *)
Definition busy_once : M World unit :=
  fun w =>
    if fst (clock w) <? 3
    then (Throws (new_Error "EBUSY"),
          {| clock := (fst (clock w) + 3, snd (clock w));
             script := script w; disk := disk w |},
          [])
    else (Returns tt, w, []).



(** A retry callback that throws. *)
Definition failing_cleanup (w : World) : option Error * World :=
  (Some (new_Error "EPERM"), w).

(** A disk with a folder and a file. *)
Definition small_disk : World :=
  {| clock := (0, 0); script := [];
     disk := {[ "/repo/common"; "/repo/rush.json" ]} |}.

End DemoFiles.

(** * Properties *)

(** ** The sanitizer *)

Section SanitizerFacts.
Context {World : Type} {host : Host World}.

Lemma copy_entry_kept key value (environment : IEnvironment) :
  copy_entry key value environment =
    if kept key then <[key := value]> environment else environment.
Proof.
  unfold copy_entry, kept, js_assign.
  destruct (String.eqb (normalizedKey key) "INIT_CWD"); simpl; [done|].
  destruct (match_NPM_CONFIG (normalizedKey key)); simpl; [done|].
  by destruct (String.eqb key "__proto__").
Qed.

(** The loop is a filter: a key of the result is a kept key of the base,
    with the value it had there. *)
Lemma lookup_copy_loop (base : IEnvironment) (key : string) :
  map_fold copy_entry ∅ base !! key =
    if kept key then base !! key else None.
Proof.
  revert base.
  apply (map_fold_weak_ind
           (fun r m => r !! key = if kept key then m !! key else None)).
  - rewrite lookup_empty. by destruct (kept key).
  - intros i x m r Hi IH. rewrite copy_entry_kept.
    destruct (decide (i = key)) as [->|Hne].
    + destruct (kept key) eqn:Hk.
      * by rewrite !lookup_insert_eq.
      * by rewrite IH.
    + rewrite (lookup_insert_ne m) by done.
      destruct (kept i); [rewrite lookup_insert_ne by done|]; exact IH.
Qed.

Lemma lookup_sanitized initCwd initialEnvironment key :
  _createEnvironmentForRushCommand initCwd initialEnvironment !! key =
    if truthy_string initCwd && String.eqb "INIT_CWD" key
    then Some (Str initCwd)
    else if kept key then base_of initialEnvironment !! key else None.
Proof.
  unfold _createEnvironmentForRushCommand.
  fold (base_of initialEnvironment).
  destruct (truthy_string initCwd); cbn [andb].
  - unfold js_assign.
    change (String.eqb "INIT_CWD" "__proto__") with false. cbv iota.
    destruct (String.eqb_spec "INIT_CWD" key) as [<-|Hne].
    + by rewrite lookup_insert_eq.
    + rewrite lookup_insert_ne by done. apply lookup_copy_loop.
  - apply lookup_copy_loop.
Qed.

Lemma truthy_string_empty initCwd :
  truthy_string initCwd = false <-> initCwd = EmptyString.
Proof. destruct initCwd; simpl; split; congruence. Qed.

Lemma kept_normalized key :
  kept key = true ->
  normalizedKey key <> "INIT_CWD"
  /\ match_NPM_CONFIG (normalizedKey key) = false.
Proof.
  unfold kept. rewrite !andb_true_iff, !negb_true_iff.
  intros [[H1 H2] _]. split; [by apply String.eqb_neq | done].
Qed.

(** C1, as amended. Whatever the base environment, the sanitized
    environment has no key whose comparison key starts with
    [NPM_CONFIG_]; with an empty [initCwd] it has no key whose comparison
    key is [INIT_CWD]; with a non-empty [initCwd] it maps [INIT_CWD] to
    exactly [initCwd], and [INIT_CWD] is its only key whose comparison key
    is [INIT_CWD]. Upper-casing is supposed to leave the name [INIT_CWD]
    as it is. *)
Theorem sanitized_environment_keys initCwd initialEnvironment :
  normalizedKey "INIT_CWD" = "INIT_CWD" ->
  let sanitized := _createEnvironmentForRushCommand initCwd initialEnvironment in
  (forall key, is_Some (sanitized !! key) ->
               match_NPM_CONFIG (normalizedKey key) = false)
  /\ (initCwd = EmptyString ->
      forall key, is_Some (sanitized !! key) -> normalizedKey key <> "INIT_CWD")
  /\ (initCwd <> EmptyString ->
      sanitized !! "INIT_CWD" = Some (Str initCwd)
      /\ forall key, is_Some (sanitized !! key) ->
                     normalizedKey key = "INIT_CWD" -> key = "INIT_CWD").
Proof.
  intros Hupper sanitized. subst sanitized. repeat split.
  - intros key. rewrite lookup_sanitized.
    destruct (truthy_string initCwd && String.eqb "INIT_CWD" key) eqn:Hinj.
    + apply andb_true_iff in Hinj as [_ Hkey].
      apply String.eqb_eq in Hkey as <-. by rewrite Hupper.
    + destruct (kept key) eqn:Hk; [|by intros [? ?]].
      intros _. by apply kept_normalized.
  - intros -> key. rewrite lookup_sanitized. cbn [truthy_string andb].
    destruct (kept key) eqn:Hk; [|by intros [? ?]].
    intros _. by apply kept_normalized.
  - rewrite lookup_sanitized.
    destruct initCwd; [done|]. by rewrite String.eqb_refl.
  - intros key. rewrite lookup_sanitized.
    destruct (truthy_string initCwd && String.eqb "INIT_CWD" key) eqn:Hinj.
    + apply andb_true_iff in Hinj as [_ Hkey].
      by apply String.eqb_eq in Hkey as <-.
    + destruct (kept key) eqn:Hk; [|by intros [? ?]].
      intros _ Hnorm. by apply kept_normalized in Hk as [? _].
Qed.

(** C9, as amended. An environment that the sanitizer produced with an
    empty [initCwd] is a fixed point of the sanitizer with an empty
    [initCwd]. *)
Theorem sanitize_idempotent_without_initCwd initialEnvironment :
  let sanitized :=
    _createEnvironmentForRushCommand EmptyString initialEnvironment in
  _createEnvironmentForRushCommand EmptyString (Some sanitized) = sanitized.
Proof.
  intros sanitized. subst sanitized. apply map_eq. intros key.
  rewrite !lookup_sanitized. cbn [truthy_string andb base_of].
  rewrite lookup_sanitized. cbn [truthy_string andb].
  by destruct (kept key).
Qed.

End SanitizerFacts.

(** ** The monad *)

Section MonadFacts.
Context {World : Type}.

Lemma bind_returns {A B} (m : M World A) (k : A -> M World B) w a w1 evs1 :
  m w = (Returns a, w1, evs1) ->
  bind m k w =
    (completion_of (k a w1), world_of (k a w1), evs1 ++ journal_of (k a w1)).
Proof.
  intros Hm. unfold bind. rewrite Hm.
  by destruct (k a w1) as [[c w2] evs2].
Qed.

Lemma bind_throws {A B} (m : M World A) (k : A -> M World B) w e w1 evs1 :
  m w = (Throws e, w1, evs1) -> bind m k w = (Throws e, w1, evs1).
Proof. intros Hm. unfold bind. by rewrite Hm. Qed.

Lemma try_catch_throws {A} (body : M World A) handler w e w1 evs1 :
  body w = (Throws e, w1, evs1) ->
  try_catch body handler w =
    (completion_of (handler e w1), world_of (handler e w1),
     evs1 ++ journal_of (handler e w1)).
Proof.
  intros Hb. unfold try_catch. rewrite Hb.
  by destruct (handler e w1) as [[c w2] evs2].
Qed.

Lemma try_catch_returns {A} (body : M World A) handler w a w1 evs1 :
  body w = (Returns a, w1, evs1) ->
  try_catch body handler w = (Returns a, w1, evs1).
Proof. intros Hb. unfold try_catch. by rewrite Hb. Qed.

Lemma surjective_triple {A} (r : Completion A * World * list Event) :
  r = (completion_of r, world_of r, journal_of r).
Proof. by destruct r as [[c w] evs]. Qed.

End MonadFacts.

(** ** Strings *)





(** ** The executor *)

Section ExecutorFacts.
Context {World : Type} {host : Host World}.

Lemma processResult_processed result (w : World) :
  _processResult result w = (processed result, w, []).
Proof.
  unfold _processResult, processed, stderr_text, truthy_status.
  destruct (error result); [done|].
  destruct (status result) as [code|]; [|done].
  by destruct (code =? 0).
Qed.

Lemma executeCommandInternal_run command args workingDirectory stdio
    environment keepEnvironment (w : World) :
  let options :=
    spawn_options workingDirectory stdio environment keepEnvironment in
  let '(result, w', later) := spawned command args options w in
  _executeCommandInternal command args workingDirectory stdio environment
    keepEnvironment w =
    (match processed result with
     | Returns _ => Returns result
     | Throws e => Throws e
     | OutOfFuel => OutOfFuel
     end,
     w',
     Spawned (escapedCommand command) (escapedArgs args) options :: later).
Proof.
  intros options. unfold spawned, _executeCommandInternal.
  fold options. unfold bind at 1. unfold spawnSync at 1.
  destruct (child_process_spawnSync (escapedCommand command)
              (escapedArgs args) options w) as [first w1].
  destruct (is_ENOENT first).
  - unfold bind at 1. unfold spawnSync.
    destruct (child_process_spawnSync (command +:+ ".cmd") args options w1)
      as [second w2].
    unfold bind. rewrite processResult_processed.
    by destruct (processed second).
  - unfold bind, ret. rewrite processResult_processed.
    by destruct (processed first).
Qed.


(** The spawns of [executeCommand] are those of
    [_executeCommandInternal]. *)
Lemma executeCommand_spawns command args workingDirectory environment
    suppressOutput keepEnvironment (w : World) :
  List.filter is_Spawned
    (journal_of (executeCommand command args workingDirectory environment
                   suppressOutput keepEnvironment w))
  = journal_of (_executeCommandInternal command args workingDirectory
                  (if suppressOutput : bool then None
                   else Some [Fd 0; Fd 1; Fd 2])
                  environment keepEnvironment w).
Proof.
  pose proof (executeCommandInternal_run command args workingDirectory
                (if suppressOutput then None else Some [Fd 0; Fd 1; Fd 2])
                environment keepEnvironment w) as Hrun.
  cbv zeta in Hrun.
  destruct (spawned command args _ w) as [[result w'] later] eqn:Hspawned.
  assert (List.filter is_Spawned later = later) as Hlater.
  { unfold spawned in Hspawned.
    destruct (child_process_spawnSync _ _ _ w) as [first w1].
    destruct (is_ENOENT first).
    - destruct (child_process_spawnSync _ _ _ w1) as [second w2].
      by injection Hspawned as _ _ <-.
    - by injection Hspawned as _ _ <-. }
  unfold executeCommand, bind at 1, emit. unfold bind at 1. rewrite Hrun.
  destruct (processed result); unfold journal_of, ret; cbn [snd app];
    cbn [List.filter is_Spawned]; by rewrite ?app_nil_r, Hlater.
Qed.

(** The spawns of [executeCommandAndCaptureOutput] are those of
    [_executeCommandInternal]. *)
Lemma executeCommandAndCaptureOutput_spawns command args workingDirectory
    environment keepEnvironment (w : World) :
  journal_of (executeCommandAndCaptureOutput command args workingDirectory
                environment keepEnvironment w)
  = journal_of (_executeCommandInternal command args workingDirectory
                  (Some [Word "pipe"; Word "pipe"; Word "pipe"])
                  environment keepEnvironment w).
Proof.
  unfold executeCommandAndCaptureOutput, bind at 1.
  destruct (_executeCommandInternal command args workingDirectory _
              environment keepEnvironment w) as [[[result| |] w'] later];
    unfold journal_of, ret; cbn [snd]; by rewrite ?app_nil_r.
Qed.

(** C7, as amended. An execution by [_executeCommandInternal], which
    [executeCommand] and [executeCommandAndCaptureOutput] go through,
    spawns twice when the result of the first spawn carries an error
    whose [errno] is the string ['ENOENT'], and the second spawn is given
    the command with [.cmd] appended; it spawns once when the error
    carries another string as its [errno], and when the result carries
    no error. The error of the execution, if any, is the one that
    [_processResult] raises for the result of the last spawn. *)
Theorem ENOENT_fallback command args workingDirectory stdio environment
    keepEnvironment (w : World) :
  let options :=
    spawn_options workingDirectory stdio environment keepEnvironment in
  let first :=
    fst (child_process_spawnSync (escapedCommand command) (escapedArgs args)
           options w) in
  let run :=
    _executeCommandInternal command args workingDirectory stdio environment
      keepEnvironment w in
  (forall err,
     error first = Some err -> errno err = Some (ErrnoName "ENOENT") ->
     journal_of run =
       [Spawned (escapedCommand command) (escapedArgs args) options;
        Spawned (command +:+ ".cmd") args options]
     /\ count_events is_Spawned (journal_of run) = 2%nat)
  /\ (forall err code,
        error first = Some err -> errno err = Some (ErrnoName code) ->
        code <> "ENOENT" ->
        journal_of run =
          [Spawned (escapedCommand command) (escapedArgs args) options]
        /\ count_events is_Spawned (journal_of run) = 1%nat)
  /\ (error first = None ->
      journal_of run =
        [Spawned (escapedCommand command) (escapedArgs args) options]
      /\ count_events is_Spawned (journal_of run) = 1%nat)
  /\ completion_of run =
       (let last := fst (fst (spawned command args options w)) in
        match processed last with
        | Returns _ => Returns last
        | Throws e => Throws e
        | OutOfFuel => OutOfFuel
        end)
  /\ (forall suppressOutput,
        stdio = (if suppressOutput : bool then None
                 else Some [Fd 0; Fd 1; Fd 2]) ->
        List.filter is_Spawned
          (journal_of (executeCommand command args workingDirectory
                         environment suppressOutput keepEnvironment w))
        = journal_of run)
  /\ (stdio = Some [Word "pipe"; Word "pipe"; Word "pipe"] ->
      journal_of (executeCommandAndCaptureOutput command args
                    workingDirectory environment keepEnvironment w)
      = journal_of run).
Proof.
  intros options first run.
  assert (journal_of run =
       (if is_ENOENT first
        then [Spawned (escapedCommand command) (escapedArgs args) options;
              Spawned (command +:+ ".cmd") args options]
        else [Spawned (escapedCommand command) (escapedArgs args) options])
       /\ completion_of run =
       (let last := fst (fst (spawned command args options w)) in
        match processed last with
        | Returns _ => Returns last
        | Throws e => Throws e
        | OutOfFuel => OutOfFuel
        end)) as [Hjournal Hcompletion].
  { pose proof (executeCommandInternal_run command args workingDirectory
                  stdio environment keepEnvironment w) as Hrun.
    cbv zeta in Hrun. fold options in Hrun. fold run in Hrun.
    subst first. unfold spawned in *.
    destruct (child_process_spawnSync (escapedCommand command)
                (escapedArgs args) options w) as [first w1].
    cbn [fst]. destruct (is_ENOENT first).
    - destruct (child_process_spawnSync (command +:+ ".cmd") args options w1)
        as [second w2].
      by rewrite Hrun.
    - by rewrite Hrun. }
  split; [|split; [|split; [|split; [exact Hcompletion|split]]]].
  - intros err Herr Herrno.
    assert (is_ENOENT first = true) as Htrigger
      by (unfold is_ENOENT; rewrite Herr, Herrno; apply String.eqb_refl).
    rewrite Hjournal, Htrigger. by split.
  - intros err code Herr Herrno Hcode.
    assert (is_ENOENT first = false) as Htrigger
      by (unfold is_ENOENT; rewrite Herr, Herrno;
          by apply String.eqb_neq).
    rewrite Hjournal, Htrigger. by split.
  - intros Herr.
    assert (is_ENOENT first = false) as Htrigger
      by (unfold is_ENOENT; by rewrite Herr).
    rewrite Hjournal, Htrigger. by split.
  - intros suppressOutput ->. apply executeCommand_spawns.
  - intros ->. apply executeCommandAndCaptureOutput_spawns.
Qed.

(** C5. When the child is spawned, so that the result carries no error: a
    status of 0 makes [_processResult] return and the execution return
    the result; a status other than 0 makes both raise an error whose
    message is made of the status in decimal and of the captured
    standard error. *)
Theorem exit_status_reported command args workingDirectory stdio
    environment keepEnvironment (w w1 : World) (result : SpawnSyncReturns) :
  child_process_spawnSync (escapedCommand command) (escapedArgs args)
    (spawn_options workingDirectory stdio environment keepEnvironment) w
    = (result, w1) ->
  error result = None ->
  let run :=
    _executeCommandInternal command args workingDirectory stdio environment
      keepEnvironment w in
  let failure code :=
    new_Error ("The command failed with exit code " +:+ pretty code
               +:+ os_EOL +:+ stderr_text result) in
  (status result = Some 0 ->
     _processResult result w1 = (Returns tt, w1, [])
     /\ completion_of run = Returns result)
  /\ (forall code, status result = Some code -> code <> 0 ->
        _processResult result w1 = (Throws (failure code), w1, [])
        /\ completion_of run = Throws (failure code)).
Proof.
  intros Hspawn Herror run failure.
  pose proof (executeCommandInternal_run command args workingDirectory
                stdio environment keepEnvironment w) as Hrun.
  cbv zeta in Hrun. unfold spawned in Hrun. rewrite Hspawn in Hrun.
  assert (is_ENOENT result = false) as Hnot
    by (unfold is_ENOENT; by rewrite Herror).
  rewrite Hnot in Hrun. fold run in Hrun.
  rewrite processResult_processed, Hrun.
  unfold processed, completion_of. rewrite Herror. cbn [fst].
  split.
  - intros ->. by rewrite Z.eqb_refl.
  - intros code -> Hcode.
    by destruct (Z.eqb_spec code 0) as [?|_].
Qed.

(** C10. When the result carries no error, [_processResult] raises
    exactly when the status is truthy; with a falsy status, so with 0 and
    with [null], it returns, and the execution returns the result as it
    does for a command that succeeded. *)
Theorem falsy_status_passes command args workingDirectory stdio
    environment keepEnvironment (w w1 : World) (result : SpawnSyncReturns) :
  child_process_spawnSync (escapedCommand command) (escapedArgs args)
    (spawn_options workingDirectory stdio environment keepEnvironment) w
    = (result, w1) ->
  error result = None ->
  let run :=
    _executeCommandInternal command args workingDirectory stdio environment
      keepEnvironment w in
  (truthy_status (status result) = false ->
     _processResult result w1 = (Returns tt, w1, [])
     /\ completion_of run = Returns result)
  /\ (status result = None -> truthy_status (status result) = false)
  /\ ((exists e, completion_of (_processResult result w1) = Throws e) <->
      truthy_status (status result) = true).
Proof.
  intros Hspawn Herror run.
  pose proof (executeCommandInternal_run command args workingDirectory
                stdio environment keepEnvironment w) as Hrun.
  cbv zeta in Hrun. unfold spawned in Hrun. rewrite Hspawn in Hrun.
  assert (is_ENOENT result = false) as Hnot
    by (unfold is_ENOENT; by rewrite Herror).
  rewrite Hnot in Hrun. fold run in Hrun.
  rewrite processResult_processed, Hrun.
  unfold processed, completion_of, truthy_status. rewrite Herror. cbn [fst].
  split; [|split].
  - destruct (status result) as [code|]; [|done].
    rewrite negb_false_iff. by intros ->.
  - by intros ->.
  - destruct (status result) as [code|].
    + destruct (code =? 0); cbn [negb]; split; try done.
      * by intros [e ?].
      * intros _. by eexists.
    + split; [by intros [e ?] | done].
Qed.

End ExecutorFacts.

(** ** Tokens and the shell *)







Section Tokens.
Context {World : Type} {host : Host World}.


End Tokens.

(** ** Retrying a command *)

Lemma count_events_app p (j1 j2 : list Event) :
  count_events p (j1 ++ j2) = (count_events p j1 + count_events p j2)%nat.
Proof. unfold count_events. by rewrite List.filter_app, length_app. Qed.

Section AttemptFacts.
Context {World : Type} {host : Host World}.
Variable maxAttempts : Z.
Variable command : string.
Variable args : list string.
Variable workingDirectory : string.
Variable environment : option IEnvironment.
Variable suppressOutput : bool.
Variable retryCallback : option (World -> option Error * World).

Let attempt : M World unit :=
  executeCommand command args workingDirectory environment suppressOutput
    false.
Let loop :=
  executeCommandWithRetry_loop maxAttempts command args workingDirectory
    environment suppressOutput retryCallback.

(** One call of [executeCommand] enters it once, spawns, and does not
    call the retry callback. *)
Lemma executeCommand_journal (w : World) :
  count_events is_EnteredExecuteCommand (journal_of (attempt w)) = 1%nat
  /\ count_events is_CalledRetryCallback (journal_of (attempt w)) = 0%nat
  /\ completion_of (attempt w) <> OutOfFuel.
Proof.
  subst attempt. unfold executeCommand, bind, emit.
  pose proof (executeCommandInternal_run command args workingDirectory
                (if suppressOutput then None else Some [Fd 0; Fd 1; Fd 2])
                environment false w) as Hrun.
  cbv zeta in Hrun. unfold spawned in Hrun.
  destruct (child_process_spawnSync _ _ _ w) as [first w1].
  destruct (is_ENOENT first).
  - destruct (child_process_spawnSync _ _ _ w1) as [second w2].
    rewrite Hrun. unfold processed.
    destruct (error second); [done|].
    destruct (status second) as [code|]; [|done].
    by destruct (code =? 0).
  - rewrite Hrun. unfold processed.
    destruct (error first); [done|].
    destruct (status first) as [code|]; [|done].
    by destruct (code =? 0).
Qed.

Lemma loop_succeeds fuel attemptNumber (w w1 : World) j :
  attempt w = (Returns tt, w1, j) ->
  loop (S fuel) attemptNumber w = (Returns tt, w1, j).
Proof. intros Hattempt. subst loop. simpl. by apply try_catch_returns. Qed.

Lemma loop_gives_up fuel attemptNumber (w w1 : World) e j :
  attempt w = (Throws e, w1, j) ->
  maxAttempts <= attemptNumber ->
  loop (S fuel) attemptNumber w =
    (Throws e, w1,
     j ++ [ConsoleLog (CommandFailed command args e);
           ConsoleError (GivingUp attemptNumber)]).
Proof.
  intros Hattempt Hlast. subst loop attempt.
  cbn [executeCommandWithRetry_loop]. unfold try_catch.
  rewrite Hattempt. apply Z.ltb_ge in Hlast.
  unfold bind, emit, throw. by rewrite Hlast.
Qed.

Lemma loop_tries_again fuel attemptNumber (w w1 w1' : World) e j :
  attempt w = (Throws e, w1, j) ->
  attemptNumber < maxAttempts ->
  callback_step retryCallback w1 = (None, w1') ->
  let rest := loop fuel (attemptNumber + 1) w1' in
  loop (S fuel) attemptNumber w =
    (completion_of rest, world_of rest,
     j ++ [ConsoleLog (CommandFailed command args e);
           ConsoleLog (TryingAgain (attemptNumber + 1))]
       ++ callback_journal retryCallback ++ journal_of rest).
Proof.
  intros Hattempt Hmore Hcallback rest. subst rest loop attempt.
  cbn [executeCommandWithRetry_loop]. unfold try_catch.
  rewrite Hattempt. apply Z.ltb_lt in Hmore.
  unfold bind, emit. rewrite Hmore.
  unfold callback_step, callback_journal in *.
  destruct retryCallback as [callback|].
  - unfold call. rewrite Hcallback.
    by destruct (executeCommandWithRetry_loop _ _ _ _ _ _ _ fuel
                   (attemptNumber + 1) w1') as [[c w2] j2].
  - injection Hcallback as <-. unfold ret.
    by destruct (executeCommandWithRetry_loop _ _ _ _ _ _ _ fuel
                   (attemptNumber + 1) w1) as [[c w2] j2].
Qed.

(** The loop ends before the fuel does, once the fuel covers the
    attempts that are left. *)
Lemma loop_total fuel attemptNumber (w : World) :
  (0 < fuel)%nat ->
  maxAttempts - attemptNumber < Z.of_nat fuel ->
  completion_of (loop fuel attemptNumber w) <> OutOfFuel.
Proof.
  revert attemptNumber w.
  induction fuel as [|fuel IH]; intros attemptNumber w Hpos Hfuel; [lia|].
  destruct (executeCommand_journal w) as (_ & _ & Htotal).
  destruct (attempt w) as [[[[]|e|] w1] j] eqn:Hattempt; [| |done].
  - by erewrite loop_succeeds.
  - destruct (Z.lt_ge_cases attemptNumber maxAttempts) as [Hmore|Hlast].
    + destruct (callback_step retryCallback w1) as [[e'|] w1'] eqn:Hcallback.
      * subst loop attempt.
        cbn [executeCommandWithRetry_loop]. unfold try_catch.
        rewrite Hattempt. apply Z.ltb_lt in Hmore.
        unfold bind, emit. rewrite Hmore.
        unfold callback_step in Hcallback.
        destruct retryCallback as [callback|]; [|done].
        unfold call. by rewrite Hcallback.
      * erewrite loop_tries_again by done.
        unfold completion_of at 1. cbn [fst]. apply IH; lia.
    + by erewrite loop_gives_up.
Qed.

(** With one unit of fuel for each attempt allowed, the call ends. *)
Lemma executeCommandWithRetry_total fuel (w : World) :
  (0 < fuel)%nat ->
  maxAttempts <= Z.of_nat fuel ->
  completion_of
    (executeCommandWithRetry maxAttempts command args workingDirectory
       environment suppressOutput retryCallback fuel w) <> OutOfFuel.
Proof.
  intros Hpos Hfuel. unfold executeCommandWithRetry.
  destruct (maxAttempts <? 1); [done|].
  apply loop_total; [done | lia].
Qed.

End AttemptFacts.

Section ThreeAttempts.
Context {World : Type} {host : Host World}.

(** C3. With [maxAttempts = 3] and a command that fails three times in a
    row (the retry callback returning in between), the call enters
    [executeCommand] exactly three times, calls the retry callback, when
    there is one, exactly twice, after the first and after the second
    failure and before the next attempt, and raises the error of the
    third attempt itself. *)
Theorem three_failed_attempts command args workingDirectory environment
    suppressOutput retryCallback fuel
    (w0 w1 w1' w2 w2' w3 : World) e1 e2 e3 j1 j2 j3 :
  (3 <= fuel)%nat ->
  executeCommand command args workingDirectory environment suppressOutput
    false w0 = (Throws e1, w1, j1) ->
  callback_step retryCallback w1 = (None, w1') ->
  executeCommand command args workingDirectory environment suppressOutput
    false w1' = (Throws e2, w2, j2) ->
  callback_step retryCallback w2 = (None, w2') ->
  executeCommand command args workingDirectory environment suppressOutput
    false w2' = (Throws e3, w3, j3) ->
  let run :=
    executeCommandWithRetry 3 command args workingDirectory environment
      suppressOutput retryCallback fuel w0 in
  run =
    (Throws e3, w3,
     j1 ++ [ConsoleLog (CommandFailed command args e1);
            ConsoleLog (TryingAgain 2)]
        ++ callback_journal retryCallback
        ++ j2 ++ [ConsoleLog (CommandFailed command args e2);
                  ConsoleLog (TryingAgain 3)]
        ++ callback_journal retryCallback
        ++ j3 ++ [ConsoleLog (CommandFailed command args e3);
                  ConsoleError (GivingUp 3)])
  /\ count_events is_EnteredExecuteCommand (journal_of run) = 3%nat
  /\ count_events is_CalledRetryCallback (journal_of run) =
       match retryCallback with Some _ => 2%nat | None => 0%nat end.
Proof.
  intros Hfuel H1 Hc1 H2 Hc2 H3 run.
  destruct fuel as [|[|[|fuel]]]; try lia.
  assert (run =
    (Throws e3, w3,
     j1 ++ [ConsoleLog (CommandFailed command args e1);
            ConsoleLog (TryingAgain 2)]
        ++ callback_journal retryCallback
        ++ j2 ++ [ConsoleLog (CommandFailed command args e2);
                  ConsoleLog (TryingAgain 3)]
        ++ callback_journal retryCallback
        ++ j3 ++ [ConsoleLog (CommandFailed command args e3);
                  ConsoleError (GivingUp 3)])) as Hrun.
  { subst run. unfold executeCommandWithRetry.
    change (3 <? 1) with false. cbv iota.
    erewrite (loop_tries_again 3) by (done || exact H1 || exact Hc1).
    erewrite (loop_tries_again 3) by (done || exact H2 || exact Hc2).
    erewrite (loop_gives_up 3) by (done || exact H3).
    done. }
  split; [exact Hrun|].
  pose proof (executeCommand_journal command args workingDirectory
                environment suppressOutput w0) as (Ha1 & Hb1 & _).
  pose proof (executeCommand_journal command args workingDirectory
                environment suppressOutput w1') as (Ha2 & Hb2 & _).
  pose proof (executeCommand_journal command args workingDirectory
                environment suppressOutput w2') as (Ha3 & Hb3 & _).
  rewrite H1 in Ha1, Hb1. rewrite H2 in Ha2, Hb2. rewrite H3 in Ha3, Hb3.
  unfold journal_of in *. cbn [snd] in *.
  rewrite Hrun. cbn [snd]. rewrite !count_events_app.
  rewrite Ha1, Ha2, Ha3, Hb1, Hb2, Hb3.
  by destruct retryCallback.
Qed.

End ThreeAttempts.

(** ** Retrying until a timeout *)

Section TimeoutFacts.
Context {World : Type} {host : Host World} {TResult : Type}.
Variable fn : M World TResult.
Variable maxWaitTimeMs : number.
Variable getTimeoutError : Error -> Error.
Variable fnName : string.

Let loop := retryUntilTimeout_loop fn maxWaitTimeMs getTimeoutError.

(** One turn of the loop when [fn] throws. *)
Lemma loop_turn fuel startTime looped (w w1 : World) e j :
  fn w = (Throws e, w1, j) ->
  loop (S fuel) startTime looped w =
    if timed_out maxWaitTimeMs startTime w1
    then (Throws (getTimeoutError e), w1, j)
    else (completion_of (loop fuel startTime true w1),
          world_of (loop fuel startTime true w1),
          j ++ journal_of (loop fuel startTime true w1)).
Proof.
  intros Hfn. subst loop. cbn [retryUntilTimeout_loop].
  unfold try_catch, bind at 1. rewrite Hfn.
  unfold bind, now, timed_out.
  destruct (number_gt (number_sub (getTimeInMs w1) startTime) maxWaitTimeMs).
  - unfold throw. by rewrite app_nil_r.
  - by destruct (retryUntilTimeout_loop _ _ _ fuel startTime true w1)
      as [[c w2] j2].
Qed.

(** When [fn] always throws and the test of the loop succeeds after some
    call, the loop ends at the first call after which the test succeeds,
    with the error of that call. *)
Lemma loop_times_out (n : nat) :
  (forall w, exists e, completion_of (fn w) = Throws e) ->
  forall startTime looped (w : World),
    timed_out maxWaitTimeMs startTime (world_after fn (S n) w) = true ->
    exists m e,
      (m <= n)%nat
      /\ completion_of (fn (world_after fn m w)) = Throws e
      /\ timed_out maxWaitTimeMs startTime (world_after fn (S m) w) = true
      /\ (forall k, (k < m)%nat ->
            timed_out maxWaitTimeMs startTime (world_after fn (S k) w)
            = false)
      /\ forall fuel, (m < fuel)%nat ->
           loop fuel startTime looped w =
             (Throws (getTimeoutError e), world_after fn (S m) w,
              journal_after fn (S m) w).
Proof.
  intros Hfails. induction n as [|n IH]; intros startTime looped w Hlate.
  - destruct (Hfails w) as [e He].
    exists 0%nat, e. repeat split; [done | done | done | lia |].
    intros [|fuel] Hfuel; [lia|].
    destruct (fn w) as [[c w1] j] eqn:Hfn.
    unfold completion_of in He. cbn [fst] in He. subst c.
    erewrite loop_turn by exact Hfn.
    cbn [world_after journal_after] in Hlate |- *.
    rewrite Hfn in Hlate. rewrite Hfn.
    unfold world_of, journal_of in Hlate |- *. cbn [fst snd] in Hlate |- *.
    rewrite Hlate. by rewrite app_nil_r.
  - destruct (Hfails w) as [e He].
    destruct (fn w) as [[c w1] j] eqn:Hfn.
    unfold completion_of in He. cbn [fst] in He. subst c.
    destruct (timed_out maxWaitTimeMs startTime w1) eqn:Hnow.
    + exists 0%nat, e.
      cbn [world_after journal_after]. rewrite Hfn.
      unfold completion_of, world_of, journal_of. cbn [fst snd].
      repeat split; [lia | done | lia |].
      intros [|fuel] Hfuel; [lia|].
      erewrite loop_turn by exact Hfn. rewrite Hnow. by rewrite app_nil_r.
    + destruct (IH startTime true w1) as (m & e' & Hm & He' & Hlate' & Hfirst & Hloop).
      { cbn [world_after] in Hlate. rewrite Hfn in Hlate. exact Hlate. }
      exists (S m), e'.
      cbn [world_after journal_after]. rewrite Hfn.
      unfold world_of at 1 2 3 4. unfold journal_of at 1. cbn [fst snd].
      repeat split; [lia | exact He' | exact Hlate' | |].
      * intros [|k] Hk.
        -- cbn [world_after]. rewrite ?Hfn. unfold world_of. cbn [fst snd].
           exact Hnow.
        -- cbn [world_after]. rewrite ?Hfn. unfold world_of at 1.
           cbn [fst snd]. apply Hfirst. lia.
      * intros [|fuel] Hfuel; [lia|].
        erewrite loop_turn by exact Hfn. rewrite Hnow.
        rewrite Hloop by lia. done.
Qed.


End TimeoutFacts.

(** ** Deleting a path *)

Section DeleteFacts.
Context {World : Type} {host : Host World}.

(** [inside path q] reads: [q] is [path] or lies in it. *)
Variable inside : string -> string -> Prop.

(** C8. [dangerouslyDeletePath] calls rimraf once, on the path as it is
    given and with glob patterns disabled. So, provided that rimraf with
    glob patterns disabled leaves alone whatever is not the path it is
    given or inside of it, a path that is not [folderPath] or inside of
    it is on disk after the call exactly when it was before. *)
Theorem dangerouslyDeletePath_is_literal :
  (forall path (w : World) q,
     ~ inside path q ->
     q ∈ fs_paths (snd (rimraf_sync path {| disableGlob := true |} w))
     <-> q ∈ fs_paths w) ->
  forall folderPath (w : World),
    let deletion := dangerouslyDeletePath folderPath w in
    journal_of deletion = [Rimraffed folderPath {| disableGlob := true |}]
    /\ world_of deletion =
         snd (rimraf_sync folderPath {| disableGlob := true |} w)
    /\ forall q, ~ inside folderPath q ->
                 q ∈ fs_paths (world_of deletion) <-> q ∈ fs_paths w.
Proof.
  intros Hliteral folderPath w deletion.
  assert (journal_of deletion =
            [Rimraffed folderPath {| disableGlob := true |}]
          /\ world_of deletion =
               snd (rimraf_sync folderPath {| disableGlob := true |} w))
    as [Hjournal Hworld].
  { subst deletion. unfold dangerouslyDeletePath, try_catch, call.
    destruct (rimraf_sync folderPath {| disableGlob := true |} w)
      as [[e|] w1]; by unfold throw. }
  repeat split; [exact Hjournal | exact Hworld | |];
    rewrite Hworld; by apply Hliteral.
Qed.

End DeleteFacts.

(** ** The purge action *)

Section PurgeFacts.
Context {World : Type} {host : Host World}.




End PurgeFacts.

(** * The properties on the concrete host *)

Section Examples.
Import Demo.

(** C1 as stated fails on [npm_config] with [initCwd = "/repo"]: the
    three parts of the claim cannot hold together, for the injected
    [INIT_CWD] is a key whose comparison key is [INIT_CWD]. *)
Lemma sanitized_has_the_injected_INIT_CWD :
  let sanitized :=
    _createEnvironmentForRushCommand (host := posix_host) "/repo"
      (Some npm_config) in
  is_Some (npm_config !! "INIT_CWD")
  /\ is_Some (npm_config !! "NPM_CONFIG_REGISTRY")
  /\ sanitized !! "INIT_CWD" = Some (Str "/repo")
  /\ ~ ((forall key, is_Some (sanitized !! key) ->
                     normalizedKey (host := posix_host) key <> "INIT_CWD")
        /\ (forall key, is_Some (sanitized !! key) ->
              match_NPM_CONFIG (normalizedKey (host := posix_host) key)
              = false)
        /\ sanitized !! "INIT_CWD" = Some (Str "/repo")).
Proof.
  intros sanitized.
  assert (sanitized !! "INIT_CWD" = Some (Str "/repo")) as Hinjected
    by (subst sanitized; by rewrite lookup_sanitized).
  split; [by eexists|]. split; [by eexists|]. split; [exact Hinjected|].
  intros (Hnone & _ & _).
  apply (Hnone "INIT_CWD"); [by rewrite Hinjected | done].
Qed.

Lemma sanitized_environment_keys_witness :
  let sanitized :=
    _createEnvironmentForRushCommand (host := win32_host) "C:\repo"
      (Some windows_config) in
  normalizedKey (host := win32_host) "INIT_CWD" = "INIT_CWD"
  /\ (forall key, is_Some (sanitized !! key) ->
        match_NPM_CONFIG (normalizedKey (host := win32_host) key) = false)
  /\ sanitized !! "INIT_CWD" = Some (Str "C:\repo")
  /\ (forall key, is_Some (sanitized !! key) ->
        normalizedKey (host := win32_host) key = "INIT_CWD" ->
        key = "INIT_CWD").
Proof.
  intros sanitized.
  destruct (sanitized_environment_keys (host := win32_host) "C:\repo"
              (Some windows_config) eq_refl) as (Hnpm & _ & Hinit).
  destruct Hinit as [Hvalue Honly]; [done|].
  exact (conj eq_refl (conj Hnpm (conj Hvalue Honly))).
Defined.

(** C9 as stated fails on an environment that the sanitizer produced
    with a non-empty [initCwd]: sanitizing it with an empty [initCwd]
    takes [INIT_CWD] away. *)
Lemma sanitize_again_drops_INIT_CWD :
  let sanitized :=
    _createEnvironmentForRushCommand (host := posix_host) "/repo" (Some ∅) in
  sanitized !! "INIT_CWD" = Some (Str "/repo")
  /\ _createEnvironmentForRushCommand (host := posix_host) EmptyString
       (Some sanitized) !! "INIT_CWD" = None
  /\ _createEnvironmentForRushCommand (host := posix_host) EmptyString
       (Some sanitized) <> sanitized.
Proof.
  intros sanitized.
  assert (sanitized !! "INIT_CWD" = Some (Str "/repo")) as Hfirst
    by (subst sanitized; by rewrite lookup_sanitized).
  assert (_createEnvironmentForRushCommand (host := posix_host) EmptyString
            (Some sanitized) !! "INIT_CWD" = None) as Hsecond
    by (by rewrite lookup_sanitized).
  split; [exact Hfirst|]. split; [exact Hsecond|].
  intros Hsame. rewrite Hsame in Hsecond. congruence.
Qed.



(** C7 as stated fails twice. A lifecycle command is a synchronous
    execution, and when its spawn fails with the [errno] ['ENOENT'] there
    is no second spawn: the next result of the script is left. And when
    the first spawn of [_executeCommandInternal] fails for a missing
    executable with the number of the error as its [errno], as later
    versions of Node report it, there is no second spawn either. *)
Lemma missing_executable_not_retried :
  let lifecycle :=
    executeLifecycleCommand (host := posix_host) (node := DemoFiles.node)
      "npm run build" "/repo" "/repo" false
      (world_with [spawn_failed "ENOENT"; exited 0]) in
  let numbered :=
    _executeCommandInternal (host := posix_host) "npm" ["install"] "/repo"
      None None true
      (world_with [spawn_failed_with_number "ENOENT" (-2); exited 0]) in
  (exists options,
     journal_of lifecycle = [Spawned "sh" ["-c"; "npm run build"] options])
  /\ script (world_of lifecycle) = [exited 0]
  /\ (exists e, completion_of lifecycle = Throws e
                /\ errno e = Some (ErrnoName "ENOENT"))
  /\ journal_of numbered =
       [Spawned "npm" [dquote +:+ "install" +:+ dquote]
          {| cwd := "/repo"; shell := true; stdio := None; env := None |}]
  /\ script (world_of numbered) = [exited 0]
  /\ (exists e, completion_of numbered = Throws e
                /\ errno e = Some (ErrnoNumber (-2))).
Proof.
  intros lifecycle numbered.
  split; [eexists; reflexivity|]. split; [reflexivity|].
  split; [eexists; split; reflexivity|]. split; [reflexivity|].
  split; [reflexivity|]. eexists; split; reflexivity.
Qed.

Lemma ENOENT_fallback_witness :
  let w := world_with [spawn_failed "ENOENT"; exited 0] in
  let options :=
    {| cwd := "/repo"; shell := true; stdio := None; env := None |} in
  let run :=
    _executeCommandInternal (host := posix_host) "npm" ["install"] "/repo"
      None None true w in
  journal_of run =
    [Spawned "npm" [dquote +:+ "install" +:+ dquote] options;
     Spawned "npm.cmd" ["install"] options]
  /\ count_events is_Spawned (journal_of run) = 2%nat.
Proof.
  intros w options run.
  exact (proj1 (ENOENT_fallback (host := posix_host) "npm" ["install"]
                  "/repo" None None true w)
           {| message := "spawn ENOENT"; errno := Some (ErrnoName "ENOENT") |}
           eq_refl eq_refl).
Defined.


Lemma three_failed_attempts_witness :
  let w0 := world_with [exited 1; exited 2; exited 3] in
  let run :=
    executeCommandWithRetry (host := posix_host) 3 "npm" ["install"] "/repo"
      None false (Some cleanup) 3 w0 in
  completion_of run =
    Throws (new_Error ("The command failed with exit code 3"
                       +:+ os_EOL (Host := posix_host)))
  /\ count_events is_EnteredExecuteCommand (journal_of run) = 3%nat
  /\ count_events is_CalledRetryCallback (journal_of run) = 2%nat.
Proof.
  intros w0 run.
  edestruct (three_failed_attempts (host := posix_host) "npm" ["install"]
               "/repo" None false (Some cleanup) 3 w0)
    as (Hrun & Hentered & Hcalled);
    [ apply le_n | reflexivity | reflexivity | reflexivity | reflexivity
    | reflexivity | ].
  fold run in Hrun, Hentered, Hcalled.
  split; [|exact (conj Hentered Hcalled)].
  rewrite Hrun. reflexivity.
Defined.



Lemma exit_status_reported_witness :
  let w0 := world_with [exited_with_stderr 2 "npm ERR!"] in
  let run :=
    _executeCommandInternal (host := posix_host) "npm" ["install"] "/repo"
      (Some [Word "pipe"; Word "pipe"; Word "pipe"]) None false w0 in
  error (exited_with_stderr 2 "npm ERR!") = None
  /\ completion_of run =
       Throws (new_Error ("The command failed with exit code 2"
                          +:+ os_EOL (Host := posix_host) +:+ "npm ERR!")).
Proof.
  intros w0 run. split; [reflexivity|].
  refine (proj2 (proj2 (exit_status_reported (host := posix_host)
                   "npm" ["install"] "/repo"
                   (Some [Word "pipe"; Word "pipe"; Word "pipe"]) None false
                   w0 _ (exited_with_stderr 2 "npm ERR!") eq_refl eq_refl)
                 2 eq_refl _)).
  discriminate.
Defined.

Lemma falsy_status_passes_witness :
  let w0 := world_with [killed "SIGTERM"] in
  let run :=
    _executeCommandInternal (host := posix_host) "npm" ["install"] "/repo"
      None None false w0 in
  error (killed "SIGTERM") = None
  /\ status (killed "SIGTERM") = None
  /\ completion_of run = Returns (killed "SIGTERM").
Proof.
  intros w0 run. split; [reflexivity|]. split; [reflexivity|].
  exact (proj2 (proj1 (falsy_status_passes (host := posix_host)
                  "npm" ["install"] "/repo" None None false
                  w0 _ (killed "SIGTERM") eq_refl eq_refl)
                eq_refl)).
Defined.

(** The rimraf of the concrete host keeps to its path when glob patterns
    are disabled. *)
Lemma demo_rimraf_literal path (w : World) q :
  ~ inside path q = true ->
  q ∈ disk (snd (demo_rimraf path {| disableGlob := true |} w))
  <-> q ∈ disk w.
Proof.
  intros Houtside. unfold demo_rimraf. cbn [snd disk disableGlob].
  rewrite elem_of_filter. destruct (inside path q); [done|].
  split; [by intros [_ ?] | by intros ?].
Qed.

Lemma dangerouslyDeletePath_is_literal_witness :
  let deletion := dangerouslyDeletePath (host := posix_host) "/tmp/*"
                    starred_disk in
  ~ inside "/tmp/*" "/tmp/a" = true
  /\ "/tmp/a" ∈ disk starred_disk
  /\ "/tmp/a" ∈ disk (world_of deletion).
Proof.
  intros deletion.
  assert (~ inside "/tmp/*" "/tmp/a" = true) as Houtside by discriminate.
  assert ("/tmp/a" ∈ disk starred_disk) as Hbefore
    by (unfold starred_disk; cbn [disk]; set_solver).
  split; [exact Houtside|]. split; [exact Hbefore|].
  exact (proj2 (proj2 (proj2 (dangerouslyDeletePath_is_literal
                                (host := posix_host)
                                (fun p q => inside p q = true)
                                demo_rimraf_literal "/tmp/*" starred_disk))
                 "/tmp/a" Houtside) Hbefore).
Defined.

(** With glob patterns enabled, the same call of rimraf would have taken
    [/tmp/a] away. *)
Example glob_pattern_would_expand :
  elements (disk (snd (demo_rimraf "/tmp/*" {| disableGlob := false |}
                         starred_disk)))
  = ["/home"].
Proof. by vm_compute. Qed.

End Examples.

(** * Further properties *)

(** ** The sanitizer, continued *)

Section SanitizerMore.
Context {World : Type} {host : Host World}.

(** X1. Apart from [INIT_CWD], every entry of the sanitized environment is
    an entry of the base environment, with the value it has there: the
    sanitizer adds no other name and changes no value. *)
Theorem sanitized_entries_are_base_entries initCwd initialEnvironment :
  delete "INIT_CWD" (_createEnvironmentForRushCommand initCwd initialEnvironment)
  ⊆ base_of initialEnvironment.
Proof.
  apply map_subseteq_spec. intros key value.
  destruct (decide ("INIT_CWD" = key)) as [<-|Hother].
  - by rewrite lookup_delete_eq.
  - rewrite lookup_delete_ne by done. rewrite lookup_sanitized.
    apply String.eqb_neq in Hother. rewrite Hother, andb_false_r.
    by destruct (kept key).
Qed.

(** X2. An entry of the base environment is carried over with its value
    when its name is not [INIT_CWD] nor [__proto__], its comparison key is
    not [INIT_CWD] and does not start with [NPM_CONFIG_]. *)
Theorem sanitizer_keeps_other_entries initCwd initialEnvironment key :
  key <> "INIT_CWD" ->
  key <> "__proto__" ->
  normalizedKey key <> "INIT_CWD" ->
  match_NPM_CONFIG (normalizedKey key) = false ->
  _createEnvironmentForRushCommand initCwd initialEnvironment !! key
  = base_of initialEnvironment !! key.
Proof.
  intros Hname Hproto Hinit Hnpm. rewrite lookup_sanitized.
  assert (String.eqb "INIT_CWD" key = false) as ->
    by (apply String.eqb_neq; congruence).
  rewrite andb_false_r. unfold kept.
  apply String.eqb_neq in Hinit, Hproto. by rewrite Hinit, Hnpm, Hproto.
Qed.

(** X3. Where the platform is not [win32] the names are compared as they
    are: without [initCwd], a name is dropped exactly when it is [INIT_CWD],
    starts with [NPM_CONFIG_] in capitals, or is [__proto__]; a name such as
    [npm_config_registry] is carried over. *)
Theorem posix_sanitizer_compares_case initialEnvironment key :
  os_platform <> "win32" ->
  _createEnvironmentForRushCommand EmptyString initialEnvironment !! key
  = if String.eqb key "INIT_CWD" || String.prefix "NPM_CONFIG_" key
       || String.eqb key "__proto__"
    then None
    else base_of initialEnvironment !! key.
Proof.
  intros Hposix. rewrite lookup_sanitized. cbn [truthy_string andb].
  unfold kept, normalizedKey, match_NPM_CONFIG.
  apply String.eqb_neq in Hposix. rewrite Hposix.
  destruct (String.eqb key "INIT_CWD"); [done|].
  destruct (String.prefix "NPM_CONFIG_" key); [done|].
  by destruct (String.eqb key "__proto__").
Qed.

(** X4. Sanitizing what was already sanitized gives what sanitizing the
    base gives: the [initCwd] of the second pass wins, and nothing else
    changes. Upper-casing is supposed to leave the name [INIT_CWD] as it
    is. *)
Theorem sanitize_after_sanitize initCwd1 initCwd2 initialEnvironment :
  normalizedKey "INIT_CWD" = "INIT_CWD" ->
  _createEnvironmentForRushCommand initCwd2
    (Some (_createEnvironmentForRushCommand initCwd1 initialEnvironment))
  = _createEnvironmentForRushCommand initCwd2 initialEnvironment.
Proof.
  intros Hupper. apply map_eq. intros key.
  rewrite !lookup_sanitized. cbn [base_of]. rewrite lookup_sanitized.
  destruct (truthy_string initCwd2 && String.eqb "INIT_CWD" key); [done|].
  destruct (kept key) eqn:Hkept; [|done].
  destruct (String.eqb_spec "INIT_CWD" key) as [<-|Hother].
  - unfold kept in Hkept. rewrite Hupper in Hkept. done.
  - by rewrite andb_false_r.
Qed.

End SanitizerMore.

(** ** Small functions *)

(** X5. [getSetAsArray] gives the values of the set, each once, in the
    order in which the set holds them. *)
Theorem getSetAsArray_values {T : Type} (set : list T) :
  getSetAsArray set = set.
Proof.
  unfold getSetAsArray.
  assert (forall acc, List.fold_left (fun result value => result ++ [value])
                        set acc = acc ++ set) as Hfold.
  { induction set as [|value rest IH]; intros acc; cbn [List.fold_left].
    - by rewrite app_nil_r.
    - rewrite IH. by rewrite <- app_assoc. }
  apply Hfold.
Qed.


(** ** Retrying until a timeout, continued *)

Section TimeoutMore.
Context {World : Type} {host : Host World} {TResult : Type}.
Variable fn : M World TResult.
Variable maxWaitTimeMs : number.
Variable getTimeoutError : Error -> Error.
Variable fnName : string.

Local Abbreviation loop :=
  (retryUntilTimeout_loop fn maxWaitTimeMs getTimeoutError).

(** One turn of the loop when [fn] returns. *)
Lemma loop_returns fuel startTime looped (w w1 : World) r j :
  fn w = (Returns r, w1, j) ->
  loop (S fuel) startTime looped w = (Returns (r, looped), w1, j).
Proof.
  intros Hfn. cbn [retryUntilTimeout_loop].
  unfold try_catch, bind, ret. rewrite Hfn. by rewrite app_nil_r.
Qed.

(** The loop when [fn] throws [n] times within the limit and then
    returns. *)
Lemma loop_recovers (n : nat) :
  forall startTime looped (w : World) r,
    (forall k, (k < n)%nat ->
       (exists e, completion_of (fn (world_after fn k w)) = Throws e)
       /\ timed_out maxWaitTimeMs startTime (world_after fn (S k) w)
          = false) ->
    completion_of (fn (world_after fn n w)) = Returns r ->
    forall fuel, (n < fuel)%nat ->
      loop fuel startTime looped w =
        (Returns (r, match n with O => looped | S _ => true end),
         world_after fn (S n) w, journal_after fn (S n) w).
Proof.
  induction n as [|n IH]; intros startTime looped w r Hfails Hreturns
    [|fuel] Hfuel; try lia.
  - cbn [world_after journal_after] in Hreturns |- *.
    destruct (fn w) as [[c w1] j] eqn:Hfn.
    unfold completion_of in Hreturns. cbn [fst] in Hreturns. subst c.
    erewrite loop_returns by exact Hfn.
    unfold world_of, journal_of. cbn [fst snd]. by rewrite app_nil_r.
  - destruct (Hfails 0%nat ltac:(lia)) as [[e He] Hsoon].
    cbn [world_after] in He.
    destruct (fn w) as [[c w1] j] eqn:Hfn.
    unfold completion_of in He. cbn [fst] in He. subst c.
    assert (forall k, world_after fn (S k) w = world_after fn k w1) as Hworld
      by (intros k; cbn [world_after]; by rewrite Hfn).
    assert (forall k, journal_after fn (S k) w = j ++ journal_after fn k w1)
      as Hjournal by (intros k; cbn [journal_after]; by rewrite Hfn).
    rewrite (Hworld 0%nat) in Hsoon. cbn [world_after] in Hsoon.
    rewrite (Hworld n) in Hreturns.
    rewrite (Hworld (S n)), (Hjournal (S n)).
    erewrite loop_turn by exact Hfn.
    rewrite Hsoon.
    rewrite (IH startTime true w1 r); [by destruct n | | exact Hreturns | lia].
    intros k Hk. destruct (Hfails (S k) ltac:(lia)) as [Hthrows Hwithin].
    rewrite (Hworld k) in Hthrows. rewrite (Hworld (S k)) in Hwithin.
    by split.
Qed.

(** X7. When [fn] throws [n] times, the test
    [currentTime - startTime > maxWaitTimeMs] of the loop failing after
    each of these calls, and then returns, [retryUntilTimeout] returns
    what that call of [fn] returned and raises nothing. It writes the line
    about the stall to the console, once and after the calls, exactly when
    [fn] threw at least once; the limit is not looked at before the first
    call nor after a call that returns. *)
Theorem retryUntilTimeout_recovers (n : nat) (w0 : World) r :
  (forall k, (k < n)%nat ->
     (exists e, completion_of (fn (world_after fn k w0)) = Throws e)
     /\ timed_out maxWaitTimeMs (getTimeInMs w0) (world_after fn (S k) w0)
        = false) ->
  completion_of (fn (world_after fn n w0)) = Returns r ->
  forall fuel, (n < fuel)%nat ->
    retryUntilTimeout fn maxWaitTimeMs getTimeoutError fnName fuel w0 =
      (Returns r, world_after fn (S n) w0,
       journal_after fn (S n) w0
       ++ match n with
          | O => []
          | S _ => [ConsoleLog
                      (Stalled fnName
                         (number_sub (getTimeInMs (world_after fn (S n) w0))
                            (getTimeInMs w0)))]
          end).
Proof.
  intros Hfails Hreturns fuel Hfuel.
  unfold retryUntilTimeout, bind at 1. unfold now at 1.
  unfold bind at 1.
  rewrite (loop_recovers n (getTimeInMs w0) false w0 r Hfails Hreturns fuel Hfuel).
  destruct n as [|n]; unfold bind, ret, now, emit; by rewrite ?app_nil_r.
Qed.

(** Where the outcomes of the loop come from. *)
Lemma loop_outcomes fuel :
  forall startTime looped (w : World),
    match completion_of (loop fuel startTime looped w) with
    | Returns (r, _) => exists w1, completion_of (fn w1) = Returns r
    | Throws raised =>
        exists e w1,
          completion_of (fn w1) = Throws e
          /\ raised = getTimeoutError e
          /\ timed_out maxWaitTimeMs startTime
               (world_of (loop fuel startTime looped w)) = true
    | OutOfFuel => True
    end.
Proof.
  induction fuel as [|fuel IH]; intros startTime looped w; [done|].
  destruct (fn w) as [[[r|e|] w1] j] eqn:Hfn.
  - erewrite loop_returns by exact Hfn.
    unfold completion_of at 1. cbn [fst].
    exists w. by rewrite Hfn.
  - erewrite loop_turn by exact Hfn.
    destruct (timed_out maxWaitTimeMs startTime w1) eqn:Hlate.
    + unfold completion_of at 1, world_of. cbn [fst snd].
      exists e, w. rewrite Hfn. by repeat split.
    + unfold completion_of at 1. unfold world_of at 1. cbn [fst snd].
      apply IH.
  - cbn [retryUntilTimeout_loop].
    unfold try_catch, bind. by rewrite Hfn.
Qed.

(** X8. Whatever [fn] does: an error that [retryUntilTimeout] raises is
    [getTimeoutError] applied to an error that [fn] threw, never that
    error itself, and it is raised only when the test
    [currentTime - startTime > maxWaitTimeMs] has succeeded; a value that
    it returns is a value that [fn] returned. *)
Theorem retryUntilTimeout_outcomes fuel (w0 : World) :
  let run :=
    retryUntilTimeout fn maxWaitTimeMs getTimeoutError fnName fuel w0 in
  match completion_of run with
  | Returns r => exists w1, completion_of (fn w1) = Returns r
  | Throws raised =>
      exists e w1,
        completion_of (fn w1) = Throws e
        /\ raised = getTimeoutError e
        /\ timed_out maxWaitTimeMs (getTimeInMs w0) (world_of run) = true
  | OutOfFuel => True
  end.
Proof.
  intros run. subst run.
  pose proof (loop_outcomes fuel (getTimeInMs w0) false w0) as Hloop.
  unfold retryUntilTimeout, bind, now.
  destruct (loop fuel (getTimeInMs w0) false w0)
    as [[[[r looped]|raised|] w1] j];
    unfold completion_of, world_of in Hloop |- *; cbn [fst snd] in Hloop.
  - by destruct looped.
  - exact Hloop.
  - done.
Qed.

End TimeoutMore.

(** ** The executor, continued *)

Section ExecutorMore.
Context {World : Type} {host : Host World}.

(** The journal of a synchronous execution: one spawn of the escaped
    command, and perhaps one of the command with [.cmd]. *)
Lemma executeCommandInternal_journal command args workingDirectory stdio
    environment keepEnvironment (w : World) :
  let options :=
    spawn_options workingDirectory stdio environment keepEnvironment in
  exists later,
    journal_of (_executeCommandInternal command args workingDirectory stdio
                  environment keepEnvironment w)
    = Spawned (escapedCommand command) (escapedArgs args) options :: later
    /\ (later = [] \/ later = [Spawned (command +:+ ".cmd") args options]).
Proof.
  intros options.
  pose proof (executeCommandInternal_run command args workingDirectory
                stdio environment keepEnvironment w) as Hrun.
  cbv zeta in Hrun. fold options in Hrun. unfold spawned in Hrun.
  destruct (child_process_spawnSync (escapedCommand command)
              (escapedArgs args) options w) as [first w1].
  destruct (is_ENOENT first).
  - destruct (child_process_spawnSync (command +:+ ".cmd") args options w1)
      as [second w2].
    rewrite Hrun. eexists. split; [reflexivity | by right].
  - rewrite Hrun. eexists. split; [reflexivity | by left].
Qed.

(** X9. Every spawn of a synchronous execution, the one with [.cmd]
    too, is given the same options. With [keepEnvironment] they hold
    [environment] as it was passed, not sanitized; without it they hold
    the sanitized environment, which has no key whose comparison key is
    [INIT_CWD] or starts with [NPM_CONFIG_]. *)
Theorem spawns_share_the_environment command args workingDirectory stdio
    environment keepEnvironment (w : World) :
  let options :=
    spawn_options workingDirectory stdio environment keepEnvironment in
  Forall (fun ev => exists c a, ev = Spawned c a options)
    (journal_of (_executeCommandInternal command args workingDirectory stdio
                   environment keepEnvironment w))
  /\ env options =
       (if keepEnvironment then environment
        else Some (_createEnvironmentForRushCommand EmptyString environment))
  /\ (keepEnvironment = false ->
      exists sanitized,
        env options = Some sanitized
        /\ forall key, is_Some (sanitized !! key) ->
             normalizedKey key <> "INIT_CWD"
             /\ match_NPM_CONFIG (normalizedKey key) = false).
Proof.
  intros options. split; [|split].
  - destruct (executeCommandInternal_journal command args workingDirectory
                stdio environment keepEnvironment w) as (later & -> & Hlater).
    fold options. apply Forall_cons. split; [by eexists _, _|].
    destruct Hlater as [->| ->]; [done|].
    apply Forall_cons. split; [by eexists _, _ | done].
  - done.
  - intros ->. eexists. split; [reflexivity|].
    intros key. rewrite lookup_sanitized. cbn [truthy_string andb].
    destruct (kept key) eqn:Hkept; [|by intros [? ?]].
    intros _. by apply kept_normalized.
Qed.

(** X10. When rimraf returns, [dangerouslyDeletePath] returns; when
    rimraf throws, it raises a new error, whose message is the message of
    rimraf's error followed by the hint about file locks, and which does
    not carry the [errno] of rimraf's error. Either way the world is as
    rimraf left it. *)
Theorem dangerouslyDeletePath_outcome folderPath (w : World) :
  let deletion := dangerouslyDeletePath folderPath w in
  let rimraffed := rimraf_sync folderPath {| disableGlob := true |} w in
  world_of deletion = snd rimraffed
  /\ completion_of deletion =
       match fst rimraffed with
       | None => Returns tt
       | Some e =>
           Throws
             {| message :=
                  message e +:+ os_EOL
                  +:+ "Often this is caused by a file lock from a process such as your text editor, command prompt, or "
                  +:+ dquote +:+ "gulp serve" +:+ dquote;
                errno := None |}
       end.
Proof.
  intros deletion rimraffed. subst deletion rimraffed.
  unfold dangerouslyDeletePath, try_catch, call.
  destruct (rimraf_sync folderPath {| disableGlob := true |} w) as [[e|] w1];
    [|done].
  unfold throw, completion_of, world_of, new_Error. cbn [fst snd].
  split; [done|]. do 2 f_equal.
Qed.

End ExecutorMore.

(** ** Retrying a command, continued *)

Section AttemptMore.
Context {World : Type} {host : Host World}.
Variable maxAttempts : Z.
Variable command : string.
Variable args : list string.
Variable workingDirectory : string.
Variable environment : option IEnvironment.
Variable suppressOutput : bool.
Variable retryCallback : option (World -> option Error * World).

Local Abbreviation attempt :=
  (executeCommand command args workingDirectory environment suppressOutput
     false).
Local Abbreviation loop :=
  (executeCommandWithRetry_loop maxAttempts command args workingDirectory
     environment suppressOutput retryCallback).
Local Abbreviation options :=
  (spawn_options workingDirectory
     (if suppressOutput then None else Some [Fd 0; Fd 1; Fd 2])
     environment false).

(** When the retry callback throws, the loop ends with its error. *)
Lemma loop_callback_throws fuel attemptNumber (w w1 w1' : World) e thrown j :
  attempt w = (Throws e, w1, j) ->
  attemptNumber < maxAttempts ->
  callback_step retryCallback w1 = (Some thrown, w1') ->
  loop (S fuel) attemptNumber w =
    (Throws thrown, w1',
     j ++ [ConsoleLog (CommandFailed command args e);
           ConsoleLog (TryingAgain (attemptNumber + 1));
           CalledRetryCallback]).
Proof.
  intros Hattempt Hmore Hcallback.
  cbn [executeCommandWithRetry_loop]. unfold try_catch.
  rewrite Hattempt. apply Z.ltb_lt in Hmore.
  unfold bind, emit. rewrite Hmore.
  unfold callback_step in Hcallback.
  destruct retryCallback as [callback|]; [|done].
  unfold call. by rewrite Hcallback.
Qed.

(** What one turn of the loop adds to the journal of its attempt. *)
Lemma loop_journal_cases fuel attemptNumber (w : World) :
  exists tail,
    journal_of (loop (S fuel) attemptNumber w)
    = journal_of (attempt w) ++ tail
    /\ (tail = []
        \/ (exists e,
              tail = [ConsoleLog (CommandFailed command args e);
                      ConsoleError (GivingUp attemptNumber)])
        \/ (exists e,
              attemptNumber < maxAttempts
              /\ tail = [ConsoleLog (CommandFailed command args e);
                         ConsoleLog (TryingAgain (attemptNumber + 1));
                         CalledRetryCallback])
        \/ (exists e w',
              attemptNumber < maxAttempts
              /\ tail = [ConsoleLog (CommandFailed command args e);
                         ConsoleLog (TryingAgain (attemptNumber + 1))]
                        ++ callback_journal retryCallback
                        ++ journal_of (loop fuel (attemptNumber + 1) w'))).
Proof.
  destruct (attempt w) as [[[[]|e|] w1] j] eqn:Hattempt.
  - erewrite loop_succeeds by exact Hattempt.
    exists []. unfold journal_of. cbn [snd]. rewrite app_nil_r. by split; [|left].
  - destruct (Z.lt_ge_cases attemptNumber maxAttempts) as [Hmore|Hlast].
    + destruct (callback_step retryCallback w1) as [[thrown|] w1'] eqn:Hcallback.
      * erewrite loop_callback_throws by done.
        eexists. split; [reflexivity|]. right. right. left. by exists e.
      * erewrite loop_tries_again by done.
        eexists. split; [reflexivity|]. right. right. right. by exists e, w1'.
    + erewrite loop_gives_up by done.
      eexists. split; [reflexivity|]. right. left. by exists e.
  - cbn [executeCommandWithRetry_loop]. unfold try_catch. rewrite Hattempt.
    exists []. unfold journal_of. cbn [snd]. rewrite app_nil_r. by split; [|left].
Qed.

Lemma loop_counts fuel :
  forall attemptNumber (w : World),
    let journal := journal_of (loop fuel attemptNumber w) in
    Z.of_nat (count_events is_EnteredExecuteCommand journal)
    <= Z.max 1 (maxAttempts - attemptNumber + 1)
    /\ (count_events is_CalledRetryCallback journal
        <= count_events is_EnteredExecuteCommand journal)%nat.
Proof.
  induction fuel as [|fuel IH]; intros attemptNumber w journal.
  - subst journal. cbn. lia.
  - subst journal.
    destruct (loop_journal_cases fuel attemptNumber w) as (tail & -> & Htail).
    destruct (executeCommand_journal command args workingDirectory environment
                suppressOutput w) as (Hentered & Hcalled & _).
    rewrite !count_events_app, Hentered, Hcalled.
    destruct Htail as [->|[[e ->]|[(e & Hmore & ->)|(e & w' & Hmore & ->)]]].
    + cbn. lia.
    + cbn. lia.
    + cbn. lia.
    + specialize (IH (attemptNumber + 1) w'). cbv zeta in IH.
      destruct IH as [IHentered IHcalled].
      rewrite !count_events_app.
      assert (count_events is_EnteredExecuteCommand
                (callback_journal retryCallback) = 0%nat) as ->
        by (by destruct retryCallback).
      assert (count_events is_CalledRetryCallback
                (callback_journal retryCallback) <= 1)%nat
        by (destruct retryCallback; cbn; lia).
      cbn [count_events List.filter is_EnteredExecuteCommand
             is_CalledRetryCallback length].
      lia.
Qed.

(** X11. Whatever the command and the callback do, a call of
    [executeCommandWithRetry] enters [executeCommand] at most
    [maxAttempts] times and calls the retry callback at most as often as
    it entered [executeCommand]; with [maxAttempts] below 1 it raises the
    error about the parameter without running anything. *)
Theorem attempts_within_budget fuel (w : World) :
  let run :=
    executeCommandWithRetry maxAttempts command args workingDirectory
      environment suppressOutput retryCallback fuel w in
  Z.of_nat (count_events is_EnteredExecuteCommand (journal_of run))
  <= Z.max 0 maxAttempts
  /\ (count_events is_CalledRetryCallback (journal_of run)
      <= count_events is_EnteredExecuteCommand (journal_of run))%nat
  /\ (maxAttempts < 1 ->
      run = (Throws (new_Error "The maxAttempts parameter cannot be less than 1"),
             w, [])).
Proof.
  intros run. subst run. unfold executeCommandWithRetry.
  destruct (Z.ltb_spec maxAttempts 1) as [Hbad|Hgood].
  - unfold throw, journal_of. cbn. repeat split; lia.
  - pose proof (loop_counts fuel 1 w) as [Hentered Hcalled].
    repeat split; [lia | exact Hcalled | lia].
Qed.

(** X12. When the first attempt fails and the retry callback throws,
    [executeCommandWithRetry] raises the error of the callback, and the
    command is not run again. *)
Theorem callback_error_ends_the_retries fuel (w0 w1 w1' : World) e thrown j :
  1 < maxAttempts ->
  attempt w0 = (Throws e, w1, j) ->
  callback_step retryCallback w1 = (Some thrown, w1') ->
  executeCommandWithRetry maxAttempts command args workingDirectory
    environment suppressOutput retryCallback (S fuel) w0 =
    (Throws thrown, w1',
     j ++ [ConsoleLog (CommandFailed command args e);
           ConsoleLog (TryingAgain 2);
           CalledRetryCallback]).
Proof.
  intros Hmany Hattempt Hcallback. unfold executeCommandWithRetry.
  assert ((maxAttempts <? 1) = false) as -> by (apply Z.ltb_ge; lia).
  by erewrite loop_callback_throws by done.
Qed.

(** X13. When the first attempt fails, the retry callback returns and
    the second attempt succeeds, [executeCommandWithRetry] returns: the
    error of the first attempt is written to the console and not raised,
    and the command is run twice. *)
Theorem second_attempt_succeeds fuel (w0 w1 w1' w2 : World) e j1 j2 :
  (2 <= fuel)%nat ->
  1 < maxAttempts ->
  attempt w0 = (Throws e, w1, j1) ->
  callback_step retryCallback w1 = (None, w1') ->
  attempt w1' = (Returns tt, w2, j2) ->
  let run :=
    executeCommandWithRetry maxAttempts command args workingDirectory
      environment suppressOutput retryCallback fuel w0 in
  run =
    (Returns tt, w2,
     j1 ++ [ConsoleLog (CommandFailed command args e);
            ConsoleLog (TryingAgain 2)]
        ++ callback_journal retryCallback ++ j2)
  /\ count_events is_EnteredExecuteCommand (journal_of run) = 2%nat.
Proof.
  intros Hfuel Hmany Hfirst Hcallback Hsecond run.
  destruct fuel as [|[|fuel]]; try lia.
  assert (run =
    (Returns tt, w2,
     j1 ++ [ConsoleLog (CommandFailed command args e);
            ConsoleLog (TryingAgain 2)]
        ++ callback_journal retryCallback ++ j2)) as Hrun.
  { subst run. unfold executeCommandWithRetry.
    assert ((maxAttempts <? 1) = false) as -> by (apply Z.ltb_ge; lia).
    erewrite loop_tries_again by done.
    by erewrite loop_succeeds by exact Hsecond. }
  split; [exact Hrun|]. rewrite Hrun. unfold journal_of. cbn [snd].
  pose proof (executeCommand_journal command args workingDirectory
                environment suppressOutput w0) as (Ha1 & _).
  pose proof (executeCommand_journal command args workingDirectory
                environment suppressOutput w1') as (Ha2 & _).
  rewrite Hfirst in Ha1. rewrite Hsecond in Ha2.
  unfold journal_of in Ha1, Ha2. cbn [snd] in Ha1, Ha2.
  rewrite !count_events_app, Ha1, Ha2. by destruct retryCallback.
Qed.

Local Abbreviation retry_event :=
  (fun ev : Event =>
     match ev with
     | Spawned c a o =>
         (o = options)
         /\ ((c = escapedCommand command /\ a = escapedArgs args)
             \/ (c = command +:+ ".cmd" /\ a = args))
     | Rimraffed _ _ => False
     | Collaborated _ => False
     | _ => True
     end).

Lemma attempt_events (w : World) : Forall retry_event (journal_of (attempt w)).
Proof.
  unfold executeCommand, bind, emit.
  destruct (executeCommandInternal_journal command args workingDirectory
              (if suppressOutput then None else Some [Fd 0; Fd 1; Fd 2])
              environment false w) as (later & Hjournal & Hlater).
  destruct (_executeCommandInternal _ _ _ _ _ _ w) as [[c w1] j].
  unfold journal_of in Hjournal. cbn [snd] in Hjournal. subst j.
  assert (Forall retry_event
            (EnteredExecuteCommand command args
             :: Spawned (escapedCommand command) (escapedArgs args) options
             :: later)) as Hall.
  { apply Forall_cons. split; [done|]. apply Forall_cons. split.
    - split; [done | by left].
    - destruct Hlater as [->| ->]; [done|].
      apply Forall_cons. split; [|done]. split; [done | by right]. }
  destruct c; unfold journal_of, ret; cbn [snd app]; by rewrite ?app_nil_r.
Qed.

Lemma loop_events fuel :
  forall attemptNumber (w : World),
    Forall retry_event (journal_of (loop fuel attemptNumber w)).
Proof.
  induction fuel as [|fuel IH]; intros attemptNumber w; [done|].
  destruct (loop_journal_cases fuel attemptNumber w) as (tail & -> & Htail).
  apply Forall_app. split; [apply attempt_events|].
  destruct Htail as [->|[[e ->]|[(e & _ & ->)|(e & w' & _ & ->)]]].
  - done.
  - by repeat (apply Forall_cons; split).
  - by repeat (apply Forall_cons; split).
  - apply Forall_cons. split; [done|]. apply Forall_cons. split; [done|].
    apply Forall_app. split; [|apply IH].
    destruct retryCallback; [|done]. by apply Forall_cons.
Qed.

(** X14. However often it retries, [executeCommandWithRetry] spawns
    nothing but the command it was given, each time either escaped with
    the escaped arguments or with [.cmd] and the arguments as they are,
    always in the given working directory and with the sanitized
    environment; it deletes nothing and calls no collaborator. *)
Theorem retries_spawn_the_same_command fuel (w : World) :
  Forall
    (fun ev =>
       match ev with
       | Spawned c a o =>
           (o = spawn_options workingDirectory
                  (if suppressOutput then None else Some [Fd 0; Fd 1; Fd 2])
                  environment false)
           /\ ((c = escapedCommand command /\ a = escapedArgs args)
               \/ (c = command +:+ ".cmd" /\ a = args))
       | Rimraffed _ _ => False
       | Collaborated _ => False
       | _ => True
       end)
    (journal_of
       (executeCommandWithRetry maxAttempts command args workingDirectory
          environment suppressOutput retryCallback fuel w)).
Proof.
  unfold executeCommandWithRetry.
  destruct (maxAttempts <? 1); [done|]. apply (loop_events fuel 1 w).
Qed.

End AttemptMore.

(** ** Files *)

Section FilesFacts.
Context {World : Type} {host : Host World} {node : Node World}.

Lemma fileExists_run path (w : World) :
  fileExists path w =
    (Returns match fsx_lstatSync path w with
             | inr lstat => isFile lstat
             | inl _ => false
             end, w, []).
Proof.
  unfold fileExists, try_catch, bind, lstatSync, ret.
  by destruct (fsx_lstatSync path w).
Qed.

Lemma directoryExists_run path (w : World) :
  directoryExists path w =
    (Returns match fsx_lstatSync path w with
             | inr lstat => isDirectory lstat
             | inl _ => false
             end, w, []).
Proof.
  unfold directoryExists, try_catch, bind, lstatSync, ret.
  by destruct (fsx_lstatSync path w).
Qed.

(** X15. [fileExists] and [directoryExists] never throw and change
    nothing: they return what [lstat] says of the path, and [false] when
    [lstat] throws. *)
Theorem existence_checks_never_throw path (w : World) :
  fileExists path w =
    (Returns match fsx_lstatSync path w with
             | inr lstat => isFile lstat
             | inl _ => false
             end, w, [])
  /\ directoryExists path w =
       (Returns match fsx_lstatSync path w with
                | inr lstat => isDirectory lstat
                | inl _ => false
                end, w, []).
Proof. split; [apply fileExists_run | apply directoryExists_run]. Qed.

(** X16. [deleteFile] does nothing at all, and raises nothing, when
    there is no file at the path: when [lstat] throws, or finds something
    that is not a file, such as a directory. When there is a file, it
    writes a line to the console and then unlinks the path; an error of
    the unlinking is raised as it is. *)
Theorem deleteFile_outcome filePath (w : World) :
  deleteFile filePath w =
    match fsx_lstatSync filePath w with
    | inr lstat =>
        if isFile lstat
        then
          let unlinked :=
            fsx_unlinkSync filePath
              (console_log ("Deleting: " +:+ filePath) w) in
          (match fst unlinked with
           | None => Returns tt
           | Some e => Throws e
           end, snd unlinked, [])
        else (Returns tt, w, [])
    | inl _ => (Returns tt, w, [])
    end.
Proof.
  unfold deleteFile, bind at 1.
  rewrite fileExists_run.
  destruct (fsx_lstatSync filePath w) as [e|lstat]; [done|].
  destruct (isFile lstat); [|done].
  unfold bind, log, fs_call.
  by destruct (fsx_unlinkSync filePath _) as [[e|] w1].
Qed.

(** The loop of [isFileTimestampCurrent] reads and changes nothing. *)
Lemma timestamp_loop_reads outputStats inputFilenames (w : World) :
  isFileTimestampCurrent_loop outputStats inputFilenames w =
    (completion_of (isFileTimestampCurrent_loop outputStats inputFilenames w),
     w, []).
Proof.
  induction inputFilenames as [|inputFilename rest IH]; [done|].
  cbn [isFileTimestampCurrent_loop]. unfold bind, existsSync, statSync.
  destruct (fsx_existsSync inputFilename w); cbn [negb]; [|done].
  destruct (fsx_statSync inputFilename w) as [e|inputStats]; [done|].
  destruct (mtime outputStats <? mtime inputStats); [done|].
  rewrite IH. done.
Qed.

Lemma timestamp_loop_true outputStats inputFilenames (w : World) :
  completion_of (isFileTimestampCurrent_loop outputStats inputFilenames w)
  = Returns true
  <-> Forall
        (fun inputFilename =>
           fsx_existsSync inputFilename w = true
           /\ exists inputStats,
                fsx_statSync inputFilename w = inr inputStats
                /\ mtime inputStats <= mtime outputStats)
        inputFilenames.
Proof.
  induction inputFilenames as [|inputFilename rest IH].
  - split; [by constructor | done].
  - rewrite Forall_cons, <- IH. clear IH.
    cbn [isFileTimestampCurrent_loop]. unfold bind, existsSync, statSync.
    destruct (fsx_existsSync inputFilename w); cbn [negb].
    + destruct (fsx_statSync inputFilename w) as [e|inputStats].
      * split; [done|]. by intros [[_ (? & ? & _)] _].
      * destruct (Z.ltb_spec (mtime outputStats) (mtime inputStats))
          as [Holder|Hnewer].
        -- split; [done|]. intros [[_ (? & [= <-] & ?)] _]. lia.
        -- rewrite timestamp_loop_reads. unfold completion_of at 1.
           cbn [fst app]. split.
           ++ intros Hrest. split; [|exact Hrest].
              split; [done|]. by exists inputStats.
           ++ by intros [_ Hrest].
    + split; [done|]. by intros [[? _] _].
Qed.

(** X17. [isFileTimestampCurrent] returns [true] exactly when the output
    exists and can be examined, and every input exists, can be examined
    and was not modified after the output. Equal times count as current,
    and with no input the answer is whether the output is there. *)
Theorem isFileTimestampCurrent_true outputFilename inputFilenames (w : World) :
  isFileTimestampCurrent outputFilename inputFilenames w
  = (Returns true, w, [])
  <-> fsx_existsSync outputFilename w = true
      /\ exists outputStats,
           fsx_statSync outputFilename w = inr outputStats
           /\ Forall
                (fun inputFilename =>
                   fsx_existsSync inputFilename w = true
                   /\ exists inputStats,
                        fsx_statSync inputFilename w = inr inputStats
                        /\ mtime inputStats <= mtime outputStats)
                inputFilenames.
Proof.
  unfold isFileTimestampCurrent, bind, existsSync, statSync.
  destruct (fsx_existsSync outputFilename w); cbn [negb].
  - destruct (fsx_statSync outputFilename w) as [e|outputStats].
    + split; [done|]. by intros [_ (? & ? & _)].
    + rewrite timestamp_loop_reads. cbn [app]. split.
      * intros [= Htrue]. split; [done|]. exists outputStats.
        split; [done|]. by apply timestamp_loop_true.
      * intros [_ (? & [= <-] & Hall)].
        apply timestamp_loop_true in Hall. by rewrite Hall.
  - split; [done|]. by intros [? _].
Qed.

Lemma timestamp_loop_throws outputStats inputFilenames (w : World) e :
  completion_of (isFileTimestampCurrent_loop outputStats inputFilenames w)
  = Throws e ->
  exists path,
    In path inputFilenames
    /\ fsx_existsSync path w = true /\ fsx_statSync path w = inl e.
Proof.
  induction inputFilenames as [|inputFilename rest IH]; [done|].
  cbn [isFileTimestampCurrent_loop]. unfold bind, existsSync, statSync.
  destruct (fsx_existsSync inputFilename w) eqn:Hexists; cbn [negb]; [|done].
  destruct (fsx_statSync inputFilename w) as [e'|inputStats] eqn:Hstat.
  - intros [= <-]. exists inputFilename. repeat split; [by left | done..].
  - destruct (mtime outputStats <? mtime inputStats); [done|].
    rewrite timestamp_loop_reads. unfold completion_of at 1. cbn [fst].
    intros Hrest. destruct (IH Hrest) as (path & Hin & Hpath).
    exists path. split; [by right | exact Hpath].
Qed.

(** X18. [isFileTimestampCurrent] changes nothing and always ends; it
    answers [false] when the output is missing; and an error that it
    raises is the error of examining the output or an input that
    exists. *)
Theorem isFileTimestampCurrent_reads outputFilename inputFilenames (w : World) :
  let answer := isFileTimestampCurrent outputFilename inputFilenames w in
  world_of answer = w
  /\ journal_of answer = []
  /\ completion_of answer <> OutOfFuel
  /\ (fsx_existsSync outputFilename w = false ->
      completion_of answer = Returns false)
  /\ (forall e, completion_of answer = Throws e ->
        exists path,
          In path (outputFilename :: inputFilenames)
          /\ fsx_existsSync path w = true /\ fsx_statSync path w = inl e).
Proof.
  intros answer. subst answer.
  unfold isFileTimestampCurrent, bind, existsSync, statSync.
  destruct (fsx_existsSync outputFilename w) eqn:Hexists; cbn [negb].
  - destruct (fsx_statSync outputFilename w) as [e|outputStats] eqn:Hstat.
    + repeat split; try done.
      intros e' [= <-]. exists outputFilename. repeat split; [by left | done..].
    + rewrite timestamp_loop_reads.
      unfold world_of, journal_of, completion_of. cbn [fst snd app].
      repeat split; try done.
      * fold (completion_of
                (isFileTimestampCurrent_loop outputStats inputFilenames w)).
        clear. induction inputFilenames as [|inputFilename rest IH]; [done|].
        cbn [isFileTimestampCurrent_loop]. unfold bind, existsSync, statSync.
        destruct (fsx_existsSync inputFilename w); cbn [negb]; [|done].
        destruct (fsx_statSync inputFilename w) as [e|inputStats]; [done|].
        destruct (mtime outputStats <? mtime inputStats); [done|].
        rewrite timestamp_loop_reads. exact IH.
      * intros e He.
        destruct (timestamp_loop_throws outputStats inputFilenames w e He)
          as (path & Hin & Hpath).
        exists path. split; [by right | exact Hpath].
  - by repeat split.
Qed.

End FilesFacts.

(** ** Creating a folder *)

Section FolderFacts.
Context {World : Type} {host : Host World} {node : Node World}.

Lemma fs_call_journal (f : World -> option Error * World) (n : nat) :
  forall w : World, journal_after (fs_call f) n w = [].
Proof.
  induction n as [|n IH]; intros w; [done|].
  cbn [journal_after]. rewrite IH. unfold fs_call, journal_of.
  by destruct (f w) as [[e|] w1].
Qed.

(** X19. [createFolderWithRetry] does nothing when the folder is there
    already: it does not call [mkdirs], and returns at once. *)
Theorem createFolderWithRetry_when_present folderName lstat fuel (w : World) :
  fsx_lstatSync folderName w = inr lstat ->
  isDirectory lstat = true ->
  createFolderWithRetry folderName fuel w = (Returns tt, w, []).
Proof.
  intros Hlstat Hdirectory. unfold createFolderWithRetry, bind.
  rewrite directoryExists_run. by rewrite Hlstat, Hdirectory.
Qed.

(** X20. When there is no folder at the path, be it that nothing is
    there or that a file has the name, and [mkdirs] fails at every call
    until the test of the time elapsed against 7000 milliseconds
    succeeds, [createFolderWithRetry]
    raises a new error made of the error of the last call of [mkdirs]. Its
    message starts with [Error: ] followed by the text of that error,
    which itself starts with [Error: ], and ends with the hint about file
    locks. *)
Theorem createFolderWithRetry_times_out folderName (w0 : World) :
  match fsx_lstatSync folderName w0 with
  | inr lstat => isDirectory lstat = false
  | inl _ => True
  end ->
  (forall w, exists e,
     fst (fsx_mkdirsSync folderName w) = Some e /\ message e <> EmptyString) ->
  (exists n,
     timed_out (number_of_Z 7000) (getTimeInMs w0)
       (world_after (fs_call (fsx_mkdirsSync folderName)) (S n) w0)
     = true) ->
  exists calls e,
    fst (fsx_mkdirsSync folderName
           (world_after (fs_call (fsx_mkdirsSync folderName)) calls w0))
    = Some e
    /\ (forall fuel, (calls < fuel)%nat ->
          createFolderWithRetry folderName fuel w0 =
            (Throws (createFolder_timeoutError e),
             world_after (fs_call (fsx_mkdirsSync folderName)) (S calls) w0,
             []))
    /\ message (createFolder_timeoutError e) =
         "Error: Error: " +:+ message e +:+ os_EOL
         +:+ "Often this is caused by a file lock from a process such as your text editor, command prompt, or "
         +:+ dquote +:+ "gulp serve" +:+ dquote.
Proof.
  intros Habsent Hfails [n Hlate].
  assert (forall w, exists e,
            completion_of (fs_call (fsx_mkdirsSync folderName) w) = Throws e)
    as Hthrows.
  { intros w. destruct (Hfails w) as (e & He & _). exists e.
    unfold fs_call, completion_of.
    destruct (fsx_mkdirsSync folderName w) as [[e'|] w1]; cbn in He |- *;
      congruence. }
  destruct (loop_times_out (fs_call (fsx_mkdirsSync folderName))
              (number_of_Z 7000)
              createFolder_timeoutError n Hthrows (getTimeInMs w0) false w0
              Hlate)
    as (calls & e & _ & He & _ & _ & Hloop).
  exists calls, e.
  assert (fst (fsx_mkdirsSync folderName
                 (world_after (fs_call (fsx_mkdirsSync folderName)) calls w0))
          = Some e) as Hlast.
  { revert He. unfold fs_call, completion_of.
    destruct (fsx_mkdirsSync folderName _) as [[e'|] w1]; cbn; congruence. }
  split; [exact Hlast|]. split.
  - intros fuel Hfuel. unfold createFolderWithRetry, bind at 1.
    rewrite directoryExists_run.
    assert (match fsx_lstatSync folderName w0 with
            | inr lstat => isDirectory lstat
            | inl _ => false
            end = false) as ->
      by (by destruct (fsx_lstatSync folderName w0)).
    unfold retryUntilTimeout, bind at 1. unfold now at 1. unfold bind at 1.
    change (number_mul (number_of_Z 7) (number_of_Z 1000))
      with (number_of_Z 7000).
    rewrite (Hloop fuel Hfuel). by rewrite fs_call_journal.
  - destruct (Hfails (world_after (fs_call (fsx_mkdirsSync folderName))
                        calls w0)) as (e' & He' & Hmessage).
    rewrite Hlast in He'. injection He' as <-.
    unfold createFolder_timeoutError, new_Error, Error_toString.
    cbn [message]. destruct (message e) as [|c rest]; [done|].
    reflexivity.
Qed.

End FolderFacts.

(** ** Lifecycle commands and installing a package *)

Section LifecycleFacts.
Context {World : Type} {host : Host World} {node : Node World}.

Lemma executeLifecycleCommand_run command workingDirectory initCwd
    captureOutput (w : World) :
  let options := lifecycle_options workingDirectory initCwd captureOutput in
  let spawn :=
    child_process_spawnSync lifecycle_shellCommand
      [lifecycle_commandFlags; command] options w in
  executeLifecycleCommand command workingDirectory initCwd captureOutput w =
    (match processed (fst spawn) with
     | Returns _ => Returns (fst spawn)
     | Throws e => Throws e
     | OutOfFuel => OutOfFuel
     end,
     snd spawn,
     [Spawned lifecycle_shellCommand [lifecycle_commandFlags; command]
        options]).
Proof.
  intros options spawn. subst spawn options.
  unfold executeLifecycleCommand, bind at 1. unfold spawnSync at 1.
  destruct (child_process_spawnSync _ _ _ w) as [result w1].
  unfold bind. rewrite processResult_processed. cbn [fst snd].
  by destruct (processed result).
Qed.

(** X21. [executeLifecycleCommand] spawns once, whatever the result of
    the spawn, also when the executable is not found: the shell, then the
    flags and the command as one argument each, the command as it was
    given. Where the platform is not [win32] the shell is [sh -c] and the
    spawn itself uses no shell; the environment is the sanitized
    [process.env] with [initCwd]. *)
Theorem lifecycle_spawns_once command workingDirectory initCwd captureOutput
    (w : World) :
  let run :=
    executeLifecycleCommand command workingDirectory initCwd captureOutput w in
  let options := lifecycle_options workingDirectory initCwd captureOutput in
  journal_of run =
    [Spawned lifecycle_shellCommand [lifecycle_commandFlags; command] options]
  /\ world_of run =
       snd (child_process_spawnSync lifecycle_shellCommand
              [lifecycle_commandFlags; command] options w)
  /\ env options = Some (_createEnvironmentForRushCommand initCwd None)
  /\ (os_platform <> "win32" ->
      lifecycle_shellCommand = "sh" /\ lifecycle_commandFlags = "-c"
      /\ shell options = false)
  /\ (os_platform = "win32" ->
      lifecycle_commandFlags = "/d /s /c" /\ shell options = true).
Proof.
  intros run options. subst run options.
  rewrite executeLifecycleCommand_run.
  split; [done|]. split; [done|]. split; [done|].
  unfold lifecycle_shellCommand, lifecycle_commandFlags, lifecycle_options.
  cbn [shell]. split.
  - intros Hposix. apply String.eqb_neq in Hposix. by rewrite Hposix.
  - intros ->. done.
Qed.

(** X22. What [executeLifecycleCommand] makes of the result of its one
    spawn: a spawn error is raised with the captured standard error added
    to its message, a status other than 0 raises the error that tells the
    status and the standard error, and otherwise, so with status 0 and
    with no status, the result is returned. *)
Theorem lifecycle_result command workingDirectory initCwd captureOutput
    (w : World) :
  let result :=
    fst (child_process_spawnSync lifecycle_shellCommand
           [lifecycle_commandFlags; command]
           (lifecycle_options workingDirectory initCwd captureOutput) w) in
  completion_of
    (executeLifecycleCommand command workingDirectory initCwd captureOutput w)
  = match error result with
    | Some err =>
        Throws {| message := message err +:+ os_EOL +:+
                    match stderr result with
                    | Some text => text +:+ os_EOL
                    | None => EmptyString
                    end;
                  errno := errno err |}
    | None =>
        match status result with
        | Some code =>
            if code =? 0 then Returns result
            else Throws (new_Error
                   ("The command failed with exit code " +:+ pretty code
                    +:+ os_EOL
                    +:+ match stderr result with
                        | Some text => text
                        | None => EmptyString
                        end))
        | None => Returns result
        end
    end.
Proof.
  intros result. subst result.
  rewrite executeLifecycleCommand_run.
  destruct (child_process_spawnSync _ _ _ w) as [result w1].
  unfold completion_of. cbn [fst].
  unfold processed, stderr_text.
  destruct (error result); [done|].
  destruct (status result) as [code|]; [|done].
  by destruct (code =? 0).
Qed.

(** X23. [installPackageInDirectory] spawns nothing but [npm install]:
    [npm] with the quoted argument, or [npm.cmd] with the argument as it
    is, each time in [directory], through a shell, and with the sanitized
    [process.env]; that the environment is sanitized before it is passed
    and again when it is used changes nothing. *)
Theorem install_spawns_npm directory packageName version tempPackageTitle
    maxInstallAttempts suppressOutput fuel (w : World) :
  Forall
    (fun ev =>
       match ev with
       | Spawned c a o =>
           (cwd o = directory) /\ (shell o = true)
           /\ (env o = Some (_createEnvironmentForRushCommand EmptyString None))
           /\ ((c = "npm" /\ a = [dquote +:+ "install" +:+ dquote])
               \/ (c = "npm.cmd" /\ a = ["install"]))
       | Rimraffed _ _ => False
       | Collaborated _ => False
       | _ => True
       end)
    (journal_of
       (installPackageInDirectory directory packageName version
          tempPackageTitle maxInstallAttempts suppressOutput fuel w)).
Proof.
  assert (_createEnvironmentForRushCommand EmptyString
            (Some (_createEnvironmentForRushCommand EmptyString None))
          = _createEnvironmentForRushCommand EmptyString None) as Htwice.
  { apply map_eq. intros key. rewrite !lookup_sanitized.
    cbn [truthy_string andb base_of]. rewrite lookup_sanitized.
    cbn [truthy_string andb]. by destruct (kept key). }
  assert (forall w',
            Forall
              (fun ev =>
                 match ev with
                 | Spawned c a o =>
                     (cwd o = directory) /\ (shell o = true)
                     /\ (env o = Some (_createEnvironmentForRushCommand
                                         EmptyString None))
                     /\ ((c = "npm" /\ a = [dquote +:+ "install" +:+ dquote])
                         \/ (c = "npm.cmd" /\ a = ["install"]))
                 | Rimraffed _ _ => False
                 | Collaborated _ => False
                 | _ => True
                 end)
              (journal_of
                 (executeCommandWithRetry maxInstallAttempts "npm" ["install"]
                    directory
                    (Some (_createEnvironmentForRushCommand EmptyString None))
                    suppressOutput None fuel w'))) as Hretry.
  { intros w'. unfold executeCommandWithRetry.
    destruct (maxInstallAttempts <? 1); [done|].
    eapply Forall_impl; [apply loop_events|].
    intros [c a o| | | | | |]; try done.
    intros [-> Hcommand]. unfold spawn_options. cbn [cwd shell env].
    rewrite Htwice. split; [done|]. split; [done|]. split; [done|].
    destruct Hcommand as [[-> ->]|[-> ->]]; [by left | by right]. }
  unfold installPackageInDirectory.
  unfold bind at 1. unfold bind at 1. unfold existsSync at 1.
  assert (forall w', exists w'',
            (if fsx_existsSync directory w : bool
             then log ("Deleting old files from " +:+ directory)
             else ret tt) w' = (Returns tt, w'', [])) as Hlog.
  { intros w'. destruct (fsx_existsSync directory w); by eexists. }
  destruct (Hlog w) as [w1 ->]. cbn [app].
  unfold bind at 1. unfold fs_call at 1.
  destruct (fsx_emptyDirSync directory w1) as [[e|] w2]; [done|].
  unfold bind at 1. unfold fs_call at 1.
  destruct (JsonFile_save _ _ w2) as [[e|] w3]; [done|].
  unfold bind at 1. unfold log at 1.
  specialize (Hretry (console_log
                        (os_EOL +:+ "Running " +:+ dquote +:+ "npm install"
                         +:+ dquote +:+ " in " +:+ directory) w3)).
  destruct (executeCommandWithRetry _ _ _ _ _ _ _ fuel _) as [[c w4] j].
  exact Hretry.
Qed.

(** X24. [installPackageInDirectory] does not run [npm] when emptying the
    directory throws: it raises that error, and no [package.json] is
    saved. *)
Theorem install_stops_when_emptying_fails directory packageName version
    tempPackageTitle maxInstallAttempts suppressOutput fuel (w : World) :
  let w1 :=
    if fsx_existsSync directory w
    then console_log ("Deleting old files from " +:+ directory) w
    else w in
  match fst (fsx_emptyDirSync directory w1) with
  | Some e =>
      installPackageInDirectory directory packageName version
        tempPackageTitle maxInstallAttempts suppressOutput fuel w
      = (Throws e, snd (fsx_emptyDirSync directory w1), [])
  | None => True
  end.
Proof.
  intros w1. subst w1. unfold installPackageInDirectory.
  unfold bind at 1. unfold bind at 1. unfold existsSync at 1.
  destruct (fsx_existsSync directory w).
  - unfold log at 1. cbn [app]. unfold bind at 1. unfold fs_call at 1.
    by destruct (fsx_emptyDirSync directory _) as [[e|] w2].
  - unfold ret at 1. cbn [app]. unfold bind at 1. unfold fs_call at 1.
    by destruct (fsx_emptyDirSync directory _) as [[e|] w2].
Qed.

End LifecycleFacts.

(** * The further properties on the concrete host *)

Section MoreExamples.
Import Demo DemoFiles.

Lemma sanitizer_keeps_other_entries_witness :
  "Path" <> "INIT_CWD"
  /\ "Path" <> "__proto__"
  /\ normalizedKey (host := win32_host) "Path" <> "INIT_CWD"
  /\ match_NPM_CONFIG (normalizedKey (host := win32_host) "Path") = false
  /\ _createEnvironmentForRushCommand (host := win32_host) "C:\repo"
       (Some windows_config) !! "Path"
     = Some (Str "C:\Windows").
Proof.
  assert ("Path" <> "INIT_CWD") as H1 by discriminate.
  assert ("Path" <> "__proto__") as H2 by discriminate.
  assert (normalizedKey (host := win32_host) "Path" <> "INIT_CWD") as H3
    by discriminate.
  assert (match_NPM_CONFIG (normalizedKey (host := win32_host) "Path") = false)
    as H4 by reflexivity.
  split; [exact H1|]. split; [exact H2|]. split; [exact H3|].
  split; [exact H4|].
  rewrite (sanitizer_keeps_other_entries (host := win32_host) "C:\repo"
             (Some windows_config) "Path" H1 H2 H3 H4).
  reflexivity.
Defined.

Lemma posix_sanitizer_compares_case_witness :
  os_platform (Host := posix_host) <> "win32"
  /\ _createEnvironmentForRushCommand (host := posix_host) EmptyString
       (Some (<["npm_config_registry" := Str "https://example.invalid"]>
                npm_config)) !! "npm_config_registry"
     = Some (Str "https://example.invalid").
Proof.
  assert (os_platform (Host := posix_host) <> "win32") as Hposix
    by discriminate.
  split; [exact Hposix|].
  rewrite (posix_sanitizer_compares_case (host := posix_host) _
             "npm_config_registry" Hposix).
  reflexivity.
Defined.

Lemma sanitize_after_sanitize_witness :
  normalizedKey (host := win32_host) "INIT_CWD" = "INIT_CWD"
  /\ _createEnvironmentForRushCommand (host := win32_host) EmptyString
       (Some (_createEnvironmentForRushCommand (host := win32_host)
                "C:\repo" (Some windows_config)))
     = _createEnvironmentForRushCommand (host := win32_host) EmptyString
         (Some windows_config).
Proof.
  split; [reflexivity|].
  exact (sanitize_after_sanitize (host := win32_host) "C:\repo" EmptyString
           (Some windows_config) eq_refl).
Defined.

Lemma retryUntilTimeout_recovers_witness :
  let w0 := world_with [] in
  (forall k, (k < 1)%nat ->
     (exists e, completion_of (busy_once (world_after busy_once k w0))
                = Throws e)
     /\ timed_out (host := posix_host) (number_of_Z 7000)
          (getTimeInMs (host := posix_host) w0)
          (world_after busy_once (S k) w0) = false)
  /\ completion_of (busy_once (world_after busy_once 1 w0)) = Returns tt
  /\ retryUntilTimeout (host := posix_host) busy_once (number_of_Z 7000)
       lock_error "createFolderWithRetry" 2 w0
     = (Returns tt, world_after busy_once 2 w0,
        journal_after busy_once 2 w0
        ++ [ConsoleLog
              (Stalled "createFolderWithRetry"
                 (number_sub
                    (getTimeInMs (host := posix_host)
                       (world_after busy_once 2 w0))
                    (getTimeInMs (host := posix_host) w0)))]).
Proof.
  intros w0.
  assert (forall k, (k < 1)%nat ->
     (exists e, completion_of (busy_once (world_after busy_once k w0))
                = Throws e)
     /\ timed_out (host := posix_host) (number_of_Z 7000)
          (getTimeInMs (host := posix_host) w0)
          (world_after busy_once (S k) w0) = false) as Hfails.
  { intros [|k] Hk; [|lia]. split; [eexists; reflexivity | reflexivity]. }
  split; [exact Hfails|]. split; [reflexivity|].
  exact (retryUntilTimeout_recovers (host := posix_host) busy_once
           (number_of_Z 7000) lock_error "createFolderWithRetry" 1 w0 tt
           Hfails eq_refl 2 (le_n 2)).
Defined.

Lemma callback_error_ends_the_retries_witness :
  let w0 := world_with [exited 1; exited 0] in
  let run :=
    executeCommandWithRetry (host := posix_host) 3 "npm" ["install"] "/repo"
      None false (Some failing_cleanup) 3 w0 in
  1 < 3
  /\ completion_of run = Throws (new_Error "EPERM")
  /\ count_events is_EnteredExecuteCommand (journal_of run) = 1%nat.
Proof.
  intros w0 run. split; [reflexivity|].
  assert (1 < 3) as Hmany by reflexivity.
  subst run.
  erewrite (callback_error_ends_the_retries (host := posix_host) 3 "npm"
              ["install"] "/repo" None false (Some failing_cleanup) 2 w0);
    [ | exact Hmany | reflexivity | reflexivity ].
  split; reflexivity.
Defined.

Lemma second_attempt_succeeds_witness :
  let w0 := world_with [exited 1; exited 0] in
  let run :=
    executeCommandWithRetry (host := posix_host) 3 "npm" ["install"] "/repo"
      None false (Some cleanup) 3 w0 in
  1 < 3
  /\ completion_of run = Returns tt
  /\ count_events is_EnteredExecuteCommand (journal_of run) = 2%nat.
Proof.
  intros w0 run. split; [reflexivity|].
  edestruct (second_attempt_succeeds (host := posix_host) 3 "npm" ["install"]
               "/repo" None false (Some cleanup) 3 w0)
    as (Hrun & Hentered);
    [ apply le_S, le_n | reflexivity | reflexivity | reflexivity
    | reflexivity | ].
  fold run in Hrun, Hentered. split; [|exact Hentered].
  rewrite Hrun. reflexivity.
Defined.

Lemma createFolderWithRetry_when_present_witness :
  let lstat := {| isFile := false; isDirectory := true; mtime := 0 |} in
  fsx_lstatSync (Node := node) "/repo/common" small_disk = inr lstat
  /\ isDirectory lstat = true
  /\ createFolderWithRetry (host := posix_host) (node := node) "/repo/common"
       5 small_disk
     = (Returns tt, small_disk, []).
Proof.
  intros lstat.
  assert (fsx_lstatSync (Node := node) "/repo/common" small_disk = inr lstat)
    as Hlstat by (by vm_compute).
  split; [exact Hlstat|]. split; [reflexivity|].
  exact (createFolderWithRetry_when_present (host := posix_host)
           (node := node) "/repo/common" lstat 5 small_disk Hlstat eq_refl).
Defined.

Lemma createFolderWithRetry_times_out_witness :
  let mkdirs := fs_call (fsx_mkdirsSync (Node := node) "/locked/temp") in
  timed_out (host := posix_host) (number_of_Z 7000)
    (getTimeInMs (host := posix_host) small_disk)
    (world_after mkdirs 3 small_disk) = true
  /\ exists calls e,
       fst (fsx_mkdirsSync (Node := node) "/locked/temp"
              (world_after mkdirs calls small_disk)) = Some e
       /\ (forall fuel, (calls < fuel)%nat ->
             createFolderWithRetry (host := posix_host) (node := node)
               "/locked/temp" fuel small_disk
             = (Throws (createFolder_timeoutError (host := posix_host) e),
                world_after mkdirs (S calls) small_disk, []))
       /\ message (createFolder_timeoutError (host := posix_host) e)
          = "Error: Error: " +:+ message e +:+ os_EOL (Host := posix_host)
            +:+ "Often this is caused by a file lock from a process such as your text editor, command prompt, or "
            +:+ dquote +:+ "gulp serve" +:+ dquote.
Proof.
  intros mkdirs.
  assert (timed_out (host := posix_host) (number_of_Z 7000)
            (getTimeInMs (host := posix_host) small_disk)
            (world_after mkdirs 3 small_disk) = true) as Hlate
    by reflexivity.
  split; [exact Hlate|].
  apply (createFolderWithRetry_times_out (host := posix_host) (node := node)
           "/locked/temp" small_disk).
  - by vm_compute.
  - intros w. eexists. split; [reflexivity | discriminate].
  - exists 2%nat. exact Hlate.
Defined.

(** Seven seconds to the nanosecond after a start at 1.1922 seconds, the
    test of the loop against 7000 milliseconds succeeds: the difference
    of the two rounded readings is more than 7000. *)
Lemma timeout_at_the_limit :
  let start := {| clock := (1, 192200000); script := []; disk := ∅ |} in
  let now := {| clock := (8, 192200000); script := []; disk := ∅ |} in
  elapsed_nanoseconds (host := posix_host) start now = 7000 * 1000000
  /\ timed_out (host := posix_host) (number_of_Z 7000)
       (getTimeInMs (host := posix_host) start) now = true.
Proof. by vm_compute. Qed.

End MoreExamples.
